(** * TChannel for Python: the Thrift and JSON schemes, and the frame codec

    A shallow embedding of [tchannel/thrift/rw.py] and
    [tchannel/schemes/json.py], with the properties of their
    specification proved over it.  Python objects become records,
    dictionaries and attribute tables become [gmap]s, and a call that can
    raise returns a [result]. *)

From Stdlib Require Import ZArith Strings.Ascii Strings.Byte.
From stdpp Require Import base decidable option list strings gmap.

Open Scope string_scope.

(** ** Python exceptions and results *)

(** Classes that derive from [Exception], each with its base class.  Classes
    are told apart by name and ancestry. *)
Inductive ExcClass : Type :=
  | Exception
  | Subclass (name : string) (base : ExcClass).

#[global] Instance ExcClass_eq_dec : EqDecision ExcClass.
Proof. solve_decision. Defined.

(** [issubclass(c, d)]: [d] is [c] or one of its ancestors. *)
Fixpoint issubclass (c d : ExcClass) : bool :=
  bool_decide (c = d) ||
  match c with
  | Exception => false
  | Subclass _ base => issubclass base d
  end.

(** An instance of an [Exception] subclass, with the text it was built
    from. *)
Record ExcInstance : Type := MkExc {
  exc_class : ExcClass;
  exc_message : string;
}.

(** What a [raise] can carry: an [Exception] instance, or an instance of a
    class that derives from [BaseException] only ([KeyboardInterrupt],
    [SystemExit], [GeneratorExit]), which [except Exception] lets through. *)
Inductive Raised : Type :=
  | Exc (e : ExcInstance)
  | BaseExc (name : string) (message : string).

Definition isinstance (e : ExcInstance) (cls : ExcClass) : bool :=
  issubclass (exc_class e) cls.

Inductive result (A : Type) : Type :=
  | Returns (a : A)
  | Raises (r : Raised).
Arguments Returns {A} a.
Arguments Raises {A} r.

(** Sequencing: the first [raise] ends the computation. *)
#[global] Instance result_bind : MBind result := λ A B k m,
  match m with
  | Returns a => k a
  | Raises r => Raises r
  end.

#[global] Instance result_fmap : FMap result := λ A B f m,
  match m with
  | Returns a => Returns (f a)
  | Raises r => Raises r
  end.

(** Built-in exception classes the code raises through [assert], attribute
    access and [ValueError]. *)
Definition AssertionError : ExcClass := Subclass "AssertionError" Exception.
Definition AttributeError : ExcClass := Subclass "AttributeError" Exception.
Definition ValueError : ExcClass := Subclass "ValueError" Exception.
Definition TypeError : ExcClass := Subclass "TypeError" Exception.
Definition RuntimeError : ExcClass := Subclass "RuntimeError" Exception.
Definition StopIteration : ExcClass := Subclass "StopIteration" Exception.

(** [tornado.gen.Return], the exception a coroutine raises to return a
    value. *)
Definition Return : ExcClass := Subclass "Return" Exception.

(** [tchannel.errors] is imported by the sources but is not among them; its
    two classes are used by name only. *)
Definition OneWayNotSupportedError : ExcClass :=
  Subclass "OneWayNotSupportedError" Exception.
Definition ValueExpectedError : ExcClass :=
  Subclass "ValueExpectedError" Exception.

(** Plain Python values carried as headers, bodies and results. *)
Inductive PyVal : Type :=
  | PyNone
  | PyStr (s : string)
  | PyInt (z : Z).

#[global] Instance PyVal_eq_dec : EqDecision PyVal.
Proof. solve_decision. Defined.

Definition is_None (v : PyVal) : bool :=
  match v with PyNone => true | _ => false end.

(** Truth value of an optional string: [None] and [''] are false. *)
Definition truthy (s : option string) : bool :=
  match s with
  | None => false
  | Some s => negb (String.eqb s EmptyString)
  end.

(** [s.endswith(suffix)] *)
Definition endswith (s suffix : string) : bool :=
  let n := String.length s in
  let m := String.length suffix in
  (m <=? n)%nat && String.eqb (String.substring (n - m) m s) suffix.

(** ** What thriftrw generates for a Thrift file *)

(** [thriftrw.spec.FieldSpec] of a declared exception: [exc_spec.name] and
    [exc_spec.spec.surface], the exception class. *)
Record FieldSpec : Type := {
  field_name : string;
  field_surface : ExcClass;
}.

(** The [type_spec] of a response class: [return_spec] is [None] for a void
    function. *)
Record ResultSpec : Type := {
  return_spec : option string;
  exception_specs : list FieldSpec;
}.

Record ResponseCls : Type := {
  response_cls_name : string;
  type_spec : ResultSpec;
}.

Record RequestCls : Type := {
  request_cls_name : string;
  request_cls_fields : list string;
}.

(** [func_spec.surface]: the [ServiceFunction] with its request and response
    classes. *)
Record ServiceFunction : Type := {
  surface_name : string;
  request : RequestCls;
  response : ResponseCls;
}.

Record FunctionSpec : Type := {
  func_name : string;
  func_oneway : bool;
  surface : ServiceFunction;
}.

Record ServiceSpec : Type := {
  service_name : string;
  functions : list FunctionSpec;
}.

Record ServiceCls : Type := {
  service_spec : ServiceSpec;
}.

(** The module [thriftrw.load] returns. *)
Record ThriftModule : Type := {
  module_name_of : string;
  services : list ServiceCls;
}.

(** ** [tchannel.thrift.rw] *)

(** [TChannelThriftModule]: the three attributes [__init__] stores first.
    The record stands for a module object on which they are still what was
    stored; [TChannelThriftModule_init] below says when the [setattr] loop
    has put a [Service] wrapper in the place of one of them. *)
Record TChannelThriftModule : Type := {
  service : option string;
  module : ThriftModule;
  hostport : option string;
}.

(** [Service]: [_module], [_cls], and the attributes installed by the
    [setattr] loop of [__init__], keyed by function name.  The record stands
    for a wrapper on which [_module], [_cls] and [_spec] are still what
    [__init__] stored first; [Service_init] below says when the loop has put
    a [Function] in the place of one of them. *)
Record Service : Type := {
  _module : TChannelThriftModule;
  _cls : ServiceCls;
  function_attrs : gmap string FunctionSpec;
}.

Definition _spec (self : Service) : ServiceSpec := service_spec (_cls self).

(** [Service.name] *)
Definition Service_name (self : Service) : string := service_name (_spec self).

(** What an [__init__] with a [setattr] loop leaves: the object with the
    attributes it stored first intact, or the object with the ones in
    [names] replaced by what the loop set under the same name.  In both
    cases [object] records what was stored first. *)
Inductive constructed (A : Type) : Type :=
  | Intact (object : A)
  | Overwritten (object : A) (names : list string).
Arguments Intact {A} object.
Arguments Overwritten {A} object names.

Definition stored {A : Type} (c : constructed A) : A :=
  match c with
  | Intact object | Overwritten object _ => object
  end.

Definition leaves {A : Type} (object : A) (replaced : list string)
    : constructed A :=
  match replaced with
  | [] => Intact object
  | _ :: _ => Overwritten object replaced
  end.

(** What one [setattr(self, name, value)] of such a loop does: it stores a new
    attribute, it replaces one that [__init__] had stored, or it raises. *)
Inductive setattr_outcome : Type :=
  | Stored
  | Replaced
  | Refused (error : ExcInstance).

(** [Function]: the slots [spec] and [service]; [func], [request_cls] and
    [response_cls] are read off [spec]. *)
Record Function : Type := {
  spec : FunctionSpec;
  function_service : Service;
}.

Definition func (self : Function) : ServiceFunction := surface (spec self).
Definition request_cls (self : Function) : RequestCls := request (func self).
Definition response_cls (self : Function) : ResponseCls := response (func self).

(** [Function.__init__(func_spec, service)] *)
Definition Function_init (func_spec : FunctionSpec) (service : Service) : Function :=
  {| spec := func_spec; function_service := service |}.

(** [Function.endpoint]: ['%s::%s' % (self.service.name, self.func.name)] *)
Definition endpoint (self : Function) : string :=
  Service_name (function_service self) ++ "::" ++ surface_name (func self).

(** [Function.oneway] *)
Definition oneway (self : Function) : bool := func_oneway (spec self).

(** [Function.__str__] *)
Definition Function_str (self : Function) : string :=
  "Function(" ++ endpoint self ++ ")".

(* [tchannel.status], from which [OK] and [FAILED] are imported, is not among
   the sources. *)

(** Modelled from the spec: the constant [OK] of [tchannel.status]; the code
    of a call response is [ok = 0x00] or [error = 0x01]. *)
Definition OK : Z := 0.

(** Modelled from the spec: the constant [FAILED] of [tchannel.status]; code
    [0x01] marks application errors while still using the normal response
    envelope. *)
Definition FAILED : Z := 1.

(** [tchannel.response.Response], with the types of headers and body left
    open: a handler's response carries plain values, the response handed to
    the dispatcher carries the function's response union, and a response off
    the wire carries bytes. *)
Record Response (H B : Type) : Type := {
  status : Z;
  headers : H;
  body : B;
}.
Arguments status {H B} _.
Arguments headers {H B} _.
Arguments body {H B} _.

(** What a handler may return: a bare value ([None] included) or a
    [Response]. *)
Inductive Mixed : Type :=
  | MixedVal (v : PyVal)
  | MixedResponse (r : Response PyVal PyVal).

(** The request a handler receives. *)
Record Request : Type := {
  request_headers : PyVal;
  request_body : PyVal;
}.

(** A Python function: its [__name__] and what calling it does. *)
Record Handler (R : Type) : Type := {
  __name__ : string;
  call : Request → result R;
}.
Arguments __name__ {R} _.
Arguments call {R} _ _.

(** An instance of a function's response class, as
    [response_cls] from the dictionary [response_kwargs] builds it: [success] and one attribute
    per declared exception, [None] where no keyword was given. *)
Record ResultUnion : Type := {
  result_cls : ResponseCls;
  success : PyVal;
  exception_attrs : gmap string ExcInstance;
}.

(** [getattr(body, exc_spec.name)]; [None] stands for Python's [None]. *)
Definition ResultUnion_getattr (body : ResultUnion) (name : string)
    : option ExcInstance :=
  exception_attrs body !! name.

(** What the coroutine [build_handler.handle] resolves with: the response it
    built and returned through [raise gen.Return(response)], or the value of
    a [tornado.gen.Return] or [StopIteration] that came out of the user's
    handler and escaped the generator. *)
Inductive Resolved : Type :=
  | Built (response : Response PyVal ResultUnion)
  | Escaped (value : Mixed).

(** An instance of a function's request class. *)
Record CallArgs : Type := {
  call_args_cls : RequestCls;
  call_args_values : list (string * PyVal);
}.

(** [tchannel.serializer.thrift.ThriftRWSerializer(module, cls)] *)
Record ThriftRWSerializer (C : Type) : Type := {
  serializer_module : TChannelThriftModule;
  serializer_cls : C;
}.
Arguments Build_ThriftRWSerializer {C} _ _.
Arguments serializer_module {C} _.
Arguments serializer_cls {C} _.

(** [ThriftRWRequest]: the keyword arguments [Function.__call__] passes, and
    the serializer [__init__] adds. *)
Record ThriftRWRequest : Type := {
  request_module : TChannelThriftModule;
  request_service : option string;
  request_endpoint : string;
  result_type : ResponseCls;
  call_args : CallArgs;
  request_hostport : option string;
  serializer : ThriftRWSerializer ResponseCls;
}.

(** One entry of the dispatcher's table. *)
Record Registration : Type := {
  registered_handler : Handler Resolved;
  request_serializer : ThriftRWSerializer RequestCls;
  response_serializer : ThriftRWSerializer ResponseCls;
}.

(** Modelled from the spec: [RequestDispatcher], which is not among the
    sources; the inbound dispatcher holds a mapping from arg1 (the endpoint
    name) to (handler, request-scheme, response-scheme). *)
Record RequestDispatcher : Type := {
  handlers : gmap string Registration;
}.

(** Modelled from the spec: [dispatcher.register(endpoint, handler,
    request serializer, response serializer)] enters the triple in the
    mapping under the endpoint name. *)
Definition dispatcher_register (dispatcher : RequestDispatcher)
    (endpoint : string) (handler : Handler Resolved)
    (req : ThriftRWSerializer RequestCls) (res : ThriftRWSerializer ResponseCls)
    : RequestDispatcher :=
  {| handlers :=
       <[endpoint := {| registered_handler := handler;
                        request_serializer := req;
                        response_serializer := res |}]> (handlers dispatcher) |}.

(** What the sources call but do not define. *)
Class Collaborators : Type := {
  (** thriftrw: the constructor of a request class, which rejects arguments the
      class does not take. *)
  request_new : RequestCls → list PyVal → list (string * PyVal) → result CallArgs;
  (** [tchannel.response]: [Response()] *)
  Response_new : Response PyVal PyVal;
  (** [tchannel.response.response_from_mixed] *)
  response_from_mixed : Mixed → Response PyVal PyVal;
  (** [thriftrw.load(path=..., name=...)] *)
  thriftrw_load : option string → option string → result ThriftModule;
  (** Attributes a [Service] inherits from [object]: the truth value of the
      attribute, [None] when there is none of that name. *)
  object_attr : string → option bool;
  (** The interpreter: the error [setattr] raises when a [Function] is set on
      a [Service] under a name that is a data descriptor of every instance
      ([__class__], [__dict__], [__weakref__]); [None] for any other name. *)
  instance_setattr_error : string → option ExcInstance;
  (** The same for a [Service] set on a [TChannelThriftModule]. *)
  module_setattr_error : string → option ExcInstance;
  (** thriftrw: the error the constructor of a response class raises for a
      [success] value that is not of the function's return type; [None] for
      a value it accepts. *)
  success_error : ResponseCls → PyVal → option ExcInstance;
  (** tornado: [_value_from_stopiteration], the value a [tornado.gen.Return]
      or a [StopIteration] carries. *)
  value_from_stopiteration : ExcInstance → Mixed;
  (** The interpreter: whether a [StopIteration] that would come out of a
      generator is replaced by a [RuntimeError] (PEP 479), as Python 3 does
      and Python 2 does not. *)
  generator_stop : bool;
}.

Section thrift_rw.
Context `{Collaborators}.

(** [setattr(self, func_spec.name, Function(func_spec, self))] in
    [Service.__init__]: [name] is a read-only property of the class, so
    setting it raises [AttributeError]; [_module], [_cls] and [_spec] are the
    attributes [__init__] has just stored. *)
Definition Service_setattr (name : string) : setattr_outcome :=
  if String.eqb name "name" then
    Refused (MkExc AttributeError "can't set attribute")
  else
    match instance_setattr_error name with
    | Some error => Refused error
    | None =>
        if bool_decide (name ∈ ["_module"; "_cls"; "_spec"])
        then Replaced else Stored
    end.

(** The loop [for func_spec in self._spec.functions: setattr(...)]: the
    functions set so far, a later one of the same name replacing an earlier
    one, and the names of the attributes of [__init__] that were replaced. *)
Fixpoint Service_setattrs (fns : list FunctionSpec)
    (attrs : gmap string FunctionSpec) (replaced : list string)
    : result (gmap string FunctionSpec * list string) :=
  match fns with
  | [] => Returns (attrs, replaced)
  | func_spec :: rest =>
      let name := func_name func_spec in
      match Service_setattr name with
      | Refused error => Raises (Exc error)
      | Replaced =>
          Service_setattrs rest (<[name := func_spec]> attrs) (replaced ++ [name])
      | Stored => Service_setattrs rest (<[name := func_spec]> attrs) replaced
      end
  end.

(** [Service.__init__(cls, module)] *)
Definition Service_init (cls : ServiceCls) (module : TChannelThriftModule)
    : result (constructed Service) :=
  '(attrs, replaced) ← Service_setattrs (functions (service_spec cls)) ∅ [];
  Returns (leaves {| _module := module; _cls := cls; function_attrs := attrs |}
                  replaced).

(** [Service.name] on what [Service.__init__] left: [self._spec.name], where
    [self._spec] is a [Function] if the loop has replaced it. *)
Definition constructed_Service_name (self : constructed Service) : result string :=
  match self with
  | Intact service => Returns (Service_name service)
  | Overwritten service names =>
      if bool_decide ("_spec" ∈ names) then
        Raises (Exc (MkExc AttributeError
                       "'Function' object has no attribute 'name'"))
      else Returns (Service_name service)
  end.

(** [Function.endpoint] of the function made for [func_spec] on what
    [Service.__init__] left: ['%s::%s' % (self.service.name, self.func.name)],
    which raises what [service.name] raises. *)
Definition constructed_endpoint (service : constructed Service)
    (func_spec : FunctionSpec) : result string :=
  name ← constructed_Service_name service;
  Returns (name ++ "::" ++ surface_name (surface func_spec)).

(** [setattr(self, name, Service(service_cls, self))] in
    [TChannelThriftModule.__init__]: [service], [module] and [hostport] are
    the attributes [__init__] has just stored. *)
Definition module_setattr (name : string) : setattr_outcome :=
  match module_setattr_error name with
  | Some error => Refused error
  | None =>
      if bool_decide (name ∈ ["service"; "module"; "hostport"])
      then Replaced else Stored
  end.

(** The loop [for service_cls in self.module.services] of
    [TChannelThriftModule.__init__]: each class is wrapped and the wrapper
    is set on the module under the name of the service. *)
Fixpoint wrap_services (self : TChannelThriftModule) (classes : list ServiceCls)
    (replaced : list string)
    : result (list (string * constructed Service) * list string) :=
  match classes with
  | [] => Returns ([], replaced)
  | service_cls :: rest =>
      let name := service_name (service_spec service_cls) in
      wrapped ← Service_init service_cls self;
      match module_setattr name with
      | Refused error => Raises (Exc error)
      | Replaced =>
          '(others, replaced) ← wrap_services self rest (replaced ++ [name]);
          Returns ((name, wrapped) :: others, replaced)
      | Stored =>
          '(others, replaced) ← wrap_services self rest replaced;
          Returns ((name, wrapped) :: others, replaced)
      end
  end.

(** [TChannelThriftModule.__init__(service, module, hostport)] *)
Definition TChannelThriftModule_init (service : option string)
    (module : ThriftModule) (hostport : option string)
    : result (constructed TChannelThriftModule) :=
  let self := {| service := service; module := module; hostport := hostport |} in
  '(_, replaced) ← wrap_services self (services module) [];
  Returns (leaves self replaced).

(** [load(path, service=None, hostport=None, module_name=None)] *)
Definition load (path : string) (service : option string)
    (hostport : option string) (module_name : option string)
    : result (constructed TChannelThriftModule) :=
  let '(service, path) :=
    if negb (endswith path ".thrift")
    then (Some path, service)
    else (service, Some path) in
  module ← thriftrw_load path module_name;
  TChannelThriftModule_init service module hostport.

(** [Function.__call__], given [args] and [kwargs] *)
Definition Function_call (self : Function)
    (args : list PyVal) (kwargs : list (string * PyVal)) : result ThriftRWRequest :=
  if oneway self then
    Raises (Exc (MkExc OneWayNotSupportedError
      "TChannel+Thrift does not currently support oneway procedures."))
  else if negb (truthy (hostport (_module (function_service self))) ||
                truthy (service (_module (function_service self)))) then
    Raises (Exc (MkExc ValueError
      ("No 'service' or 'hostport' provided to " ++ Function_str self)))
  else
    let module := _module (function_service self) in
    call_args ← request_new (request_cls self) args kwargs;
    Returns {| request_module := module;
               request_service := service module;
               request_endpoint := endpoint self;
               result_type := response_cls self;
               call_args := call_args;
               request_hostport := hostport module;
               serializer := Build_ThriftRWSerializer module (response_cls self) |}.

(** The [for ... else] of [build_handler.handle]: the first declared
    exception whose class the raised exception is an instance of. *)
Fixpoint matching_exc_spec (exc_specs : list FieldSpec) (e : ExcInstance)
    : option FieldSpec :=
  match exc_specs with
  | [] => None
  | exc_spec :: rest =>
      if isinstance e (field_surface exc_spec)
      then Some exc_spec
      else matching_exc_spec rest e
  end.

Definition expected_a_value (endpoint : string) : string :=
  "Expected a value to be returned for " ++ endpoint ++
  ", but recieved None - only void procedures can return None.".

(** The generator that is the body of [build_handler.handle(request)]: what
    it returns through [raise gen.Return(response)], or what it lets out.
    The response class checks the [success] value it is given. *)
Definition handle_generator (function : Function) (handler : Handler Mixed)
    (request : Request) : result (Response PyVal ResultUnion) :=
  let response_cls := response_cls function in
  let response_spec := type_spec response_cls in
  match call handler request with
  | Raises (Exc e) =>
      let response := Response_new in
      match matching_exc_spec (exception_specs response_spec) e with
      | Some exc_spec =>
          Returns {| status := FAILED;
                     headers := headers response;
                     body := {| result_cls := response_cls;
                                success := PyNone;
                                exception_attrs := {[ field_name exc_spec := e ]} |} |}
      | None => Raises (Exc e)
      end
  | Raises r => Raises r
  | Returns response =>
      let response := response_from_mixed response in
      match return_spec response_spec with
      | Some _ =>
          if is_None (body response) then
            Raises (Exc (MkExc AssertionError (expected_a_value (endpoint function))))
          else
            match success_error response_cls (body response) with
            | Some error => Raises (Exc error)
            | None =>
                Returns {| status := OK;
                           headers := headers response;
                           body := {| result_cls := response_cls;
                                      success := body response;
                                      exception_attrs := ∅ |} |}
            end
      | None =>
          Returns {| status := OK;
                     headers := headers response;
                     body := {| result_cls := response_cls;
                                success := PyNone;
                                exception_attrs := ∅ |} |}
      end
  end.

(** [@gen.coroutine]: the coroutine resolves with what the generator
    returned.  A [tornado.gen.Return] that comes out of the generator is
    taken for its return, and so is a [StopIteration], unless the interpreter
    has replaced it by a [RuntimeError]; anything else that comes out is
    raised. *)
Definition gen_coroutine (outcome : result (Response PyVal ResultUnion))
    : result Resolved :=
  match outcome with
  | Returns response => Returns (Built response)
  | Raises (Exc e) =>
      if isinstance e Return then
        Returns (Escaped (value_from_stopiteration e))
      else if isinstance e StopIteration then
        if generator_stop then
          Raises (Exc (MkExc RuntimeError "generator raised StopIteration"))
        else Returns (Escaped (value_from_stopiteration e))
      else Raises (Exc e)
  | Raises r => Raises r
  end.

(** [build_handler.handle(request)] *)
Definition handle (function : Function) (handler : Handler Mixed)
    (request : Request) : result Resolved :=
  gen_coroutine (handle_generator function handler request).

(** [build_handler(function, handler)] *)
Definition build_handler (function : Function) (handler : Handler Mixed)
    : Handler Resolved :=
  {| __name__ := func_name (spec function);
     call := handle function handler |}.

(** What [getattr(service, method, None)] can find: a wrapped function, or
    some other attribute of the object, of which only the truth value
    matters. *)
Inductive Attr : Type :=
  | AttrFunction (function : Function)
  | AttrOther (truth : bool).

(** Attributes of a [Service] that are not in its instance dictionary: the
    three methods of the class, and what [object] provides. *)
Definition Service_class_attr (name : string) : option bool :=
  if bool_decide (name ∈ ["__init__"; "__str__"; "__repr__"]) then Some true
  else object_attr name.

(** [getattr(service, method, None)].  The property [name] of the class
    comes before the instance dictionary, which holds the functions and the
    three attributes [__init__] sets, and the dictionary before the rest of
    the class. *)
Definition Service_getattr (service : Service) (method : string) : option Attr :=
  if String.eqb method "name" then
    Some (AttrOther (negb (String.eqb (Service_name service) EmptyString)))
  else
    match function_attrs service !! method with
    | Some func_spec => Some (AttrFunction (Function_init func_spec service))
    | None =>
        if bool_decide (method ∈ ["_module"; "_cls"; "_spec"])
        then Some (AttrOther true)
        else AttrOther <$> Service_class_attr method
    end.

(** [if not method: method = handler.__name__] *)
Definition method_or_name (method : option string) (handler : Handler Mixed)
    : string :=
  if negb (truthy method) then __name__ handler else default EmptyString method.

(** The message of the first [assert] of [register.decorator]. *)
Definition does_not_define (service : Service) (method : string) : string :=
  let quote := String "034"%char EmptyString in
  "Service " ++ quote ++ Service_name service ++ quote ++
  " does not define method " ++ quote ++ method ++ quote.

(** [register.decorator(method, handler)].  The dispatcher is the object the
    closure captured; its table is threaded through. *)
Definition decorator (dispatcher : RequestDispatcher) (service : Service)
    (method : option string) (handler : Handler Mixed)
    : result (Handler Resolved) * RequestDispatcher :=
  let method := method_or_name method handler in
  match Service_getattr service method with
  | None | Some (AttrOther false) =>
      (Raises (Exc (MkExc AssertionError (does_not_define service method))),
       dispatcher)
  | Some (AttrOther true) =>
      (Raises (Exc (MkExc AttributeError "object has no attribute 'oneway'")),
       dispatcher)
  | Some (AttrFunction function) =>
      if oneway function then
        (Raises (Exc (MkExc AssertionError EmptyString)), dispatcher)
      else
        let handler := build_handler function handler in
        (Returns handler,
         dispatcher_register dispatcher (endpoint function) handler
           (Build_ThriftRWSerializer (_module service) (request_cls function))
           (Build_ThriftRWSerializer (_module service) (response_cls function)))
  end.

(** What [register] returns: [partial(decorator, method)], still waiting for
    the handler, or the handler [decorator] returned. *)
Inductive Registered : Type :=
  | Partial (apply : Handler Mixed → RequestDispatcher →
                     result (Handler Resolved) * RequestDispatcher)
  | Installed (handler : Handler Resolved).

(** [register(dispatcher, service, handler=None, method=None)] *)
Definition register (dispatcher : RequestDispatcher) (service : Service)
    (handler : option (Handler Mixed)) (method : option string)
    : result Registered * RequestDispatcher :=
  match handler with
  | None =>
      (Returns (Partial (λ handler dispatcher,
                           decorator dispatcher service method handler)),
       dispatcher)
  | Some handler =>
      let '(r, dispatcher) := decorator dispatcher service method handler in
      (Installed <$> r, dispatcher)
  end.

(** The loop of [read_body]: the first declared exception field that is not
    [None]. *)
Fixpoint first_exception (exc_specs : list FieldSpec) (body : ResultUnion)
    : option ExcInstance :=
  match exc_specs with
  | [] => None
  | exc_spec :: rest =>
      match ResultUnion_getattr body (field_name exc_spec) with
      | Some exc => Some exc
      | None => first_exception rest body
      end
  end.

(** [ThriftRWRequest.read_body(body)] *)
Definition read_body (self : ThriftRWRequest) (body : ResultUnion) : result PyVal :=
  let response_spec := type_spec (result_type self) in
  match first_exception (exception_specs response_spec) body with
  | Some exc => Raises (Exc exc)
  | None =>
      match return_spec response_spec with
      | Some _ =>
          if is_None (success body) then
            Raises (Exc (MkExc ValueExpectedError
                           (expected_a_value (request_endpoint self))))
          else Returns (success body)
      | None => Returns PyNone
      end
  end.

End thrift_rw.

(** ** [tchannel.schemes.json] *)

Abbreviation bytes := (list byte).

(** Modelled from the spec: the constant [JSON] of [tchannel.schemes], which
    is not among the sources; built-in schemes include [raw], [json],
    [thrift]. *)
Definition JSON : string := "json".

(** Modelled from the spec: [tchannel.serializer.json.JsonSerializer], which
    is not among the sources; a scheme provides four functions,
    serializeHeaders(obj) → bytes, serializeBody(obj) → bytes, and their
    inverses. *)
Class Scheme (Obj : Type) : Type := {
  serialize_header : Obj → bytes;
  serialize_body : Obj → bytes;
  deserialize_header : bytes → Obj;
  deserialize_body : bytes → Obj;
}.

(** The keyword arguments of [TChannel.call]. *)
Record CallKwargs : Type := {
  call_scheme : string;
  call_service : string;
  arg1 : string;
  arg2 : bytes;
  arg3 : bytes;
  timeout : PyVal;
  retry_on : PyVal;
  retry_limit : PyVal;
  call_hostport : PyVal;
  shard_key : PyVal;
  trace : PyVal;
}.

(** The first argument of [JsonArgScheme.register]: a function, for which
    [callable] holds, or a plain value. *)
Inductive EndpointArg : Type :=
  | ArgFunction (f : Handler Mixed)
  | ArgValue (v : PyVal).

Definition callable (x : EndpointArg) : bool :=
  match x with ArgFunction _ => true | ArgValue _ => false end.

(** The keyword arguments of [TChannel.register]. *)
Record RegisterKwargs : Type := {
  register_scheme : string;
  register_endpoint : PyVal;
  register_handler : option (Handler Mixed);
  register_kwargs : list (string * PyVal);
}.

(** [tchannel.TChannel] is not among the sources.  It is stood in for by an
    object that answers [call] and [register] as [responds] and [registers]
    say, and keeps the keyword arguments of every invocation, oldest
    first. *)
Record TChannel : Type := {
  responds : CallKwargs → result (Response bytes bytes);
  registers : RegisterKwargs → result PyVal;
  calls : list CallKwargs;
  registrations : list RegisterKwargs;
}.

Definition TChannel_call (self : TChannel) (kwargs : CallKwargs)
    : result (Response bytes bytes) * TChannel :=
  (responds self kwargs,
   {| responds := responds self; registers := registers self;
      calls := calls self ++ [kwargs];
      registrations := registrations self |}).

Definition TChannel_register (self : TChannel) (kwargs : RegisterKwargs)
    : result PyVal * TChannel :=
  (registers self kwargs,
   {| responds := responds self; registers := registers self;
      calls := calls self;
      registrations := registrations self ++ [kwargs] |}).

Section json.
Context {Obj : Type} `{JsonSerializer : Scheme Obj}.

(** [JsonArgScheme.__call__(service, endpoint, body, headers, timeout,
    retry_on, retry_limit, hostport, shard_key, trace)]; [_tchannel] is the
    object [__init__] stored. *)
Definition JsonArgScheme_call (_tchannel : TChannel)
    (service endpoint : string) (body headers : Obj)
    (timeout retry_on retry_limit hostport shard_key trace : PyVal)
    : result (Response Obj Obj) * TChannel :=
  (* serialize *)
  let headers := serialize_header headers in
  let body := serialize_body body in
  let '(response, _tchannel) :=
    TChannel_call _tchannel
      {| call_scheme := JSON;
         call_service := service;
         arg1 := endpoint;
         arg2 := headers;
         arg3 := body;
         timeout := timeout;
         retry_on := retry_on;
         retry_limit := retry_limit;
         call_hostport := hostport;
         shard_key := shard_key;
         trace := trace |} in
  (* deserialize *)
  (response ← response;
   let '{| status := code; headers := response_headers;
           body := response_body |} := response in
   Returns {| status := code;
              headers := deserialize_header response_headers;
              body := deserialize_body response_body |},
   _tchannel).

(** The keywords that cannot be among the extra keyword arguments of
    [JsonArgScheme.register]: [endpoint] is its own parameter, and [scheme]
    and [handler] are the ones it passes to the channel itself. *)
Definition register_keywords : list string := ["scheme"; "endpoint"; "handler"].

Definition is_register_keyword (argument : string * PyVal) : bool :=
  bool_decide (argument.1 ∈ register_keywords).

(** [JsonArgScheme.register(endpoint, **kwargs)].  The extra keyword
    arguments are passed on beside [scheme=], [endpoint=] and [handler=]; a
    keyword given twice is a [TypeError], and the channel is not called. *)
Definition JsonArgScheme_register (_tchannel : TChannel)
    (endpoint : EndpointArg) (kwargs : list (string * PyVal))
    : result PyVal * TChannel :=
  let '(handler, endpoint) :=
    match endpoint with
    | ArgFunction f => (Some f, PyNone)
    | ArgValue v => (None, v)
    end in
  match find is_register_keyword kwargs with
  | Some (keyword, _) =>
      (Raises (Exc (MkExc TypeError
         ("register() got multiple values for keyword argument '" ++
          keyword ++ "'"))),
       _tchannel)
  | None =>
      TChannel_register _tchannel
        {| register_scheme := JSON;
           register_endpoint := endpoint;
           register_handler := handler;
           register_kwargs := kwargs |}
  end.

End json.

(** ** The frame codec *)

(** The codec is not among the sources; everything in this part is modelled
    on the specification's data model and codec description. *)

Open Scope Z_scope.

(** Modelled from the spec: [type] enumerates init req(0x01), init res(0x02),
    call req(0x03), call res(0x04), call req continue(0x13), call res
    continue(0x14), cancel(0xC0), claim(0xC1), ping req(0xD0), ping
    res(0xD1), error(0xFF). *)
Inductive FrameType : Type :=
  | InitReq | InitRes | CallReq | CallRes | CallReqContinue | CallResContinue
  | Cancel | Claim | PingReq | PingRes | Error.

(** Modelled from the spec: the value of [type] (u8) for each frame type. *)
Definition type_code (t : FrameType) : Z :=
  match t with
  | InitReq => 0x01 | InitRes => 0x02
  | CallReq => 0x03 | CallRes => 0x04
  | CallReqContinue => 0x13 | CallResContinue => 0x14
  | Cancel => 0xC0 | Claim => 0xC1
  | PingReq => 0xD0 | PingRes => 0xD1
  | Error => 0xFF
  end.

(** Modelled from the spec: the frame types, in the order the data model
    lists them. *)
Definition all_frame_types : list FrameType :=
  [InitReq; InitRes; CallReq; CallRes; CallReqContinue; CallResContinue;
   Cancel; Claim; PingReq; PingRes; Error].

(** Modelled from the spec: the frame type a [type] byte stands for, if it is
    one of the enumeration. *)
Definition type_of_code (code : Z) : option FrameType :=
  find (λ t, Z.eqb (type_code t) code) all_frame_types.

(** Modelled from the spec: a frame has a fixed 16-byte header and a variable
    payload; the header holds [size] (u16, total length including header),
    [type] (u8), a reserved byte, [id] (u32, message id) and eight reserved
    bytes.  [size] is computed on writing, and the reserved bytes carry
    nothing. *)
Record Frame : Type := {
  frame_type : FrameType;
  frame_id : Z;
  payload : bytes;
}.

(** Modelled from the spec: the header is 16 bytes. *)
Definition HEADER_SIZE : Z := 16.

(** Modelled from the spec: the per-frame payload budget is 65,519 bytes. *)
Definition MAX_PAYLOAD : Z := 65519.

(** Modelled from the spec: [size(F)], the total length of the frame,
    header included. *)
Definition size (F : Frame) : Z := HEADER_SIZE + Z.of_nat (length (payload F)).

(** Modelled from the spec: the invariant of the data model, [id] is a u32
    and the payload is within the budget. *)
Definition frame_ok (F : Frame) : Prop :=
  0 ≤ frame_id F < 2 ^ 32 ∧ Z.of_nat (length (payload F)) ≤ MAX_PAYLOAD.

#[global] Instance frame_ok_dec F : Decision (frame_ok F).
Proof. unfold frame_ok. apply _. Defined.

(** Modelled from the spec: a u8 of the wire, from and to its value. *)
Definition byte_of_Z (z : Z) : byte :=
  default x00 (Byte.of_N (Z.to_N (z mod 256))).

(** Modelled from the spec: the value of a u8 of the wire. *)
Definition Z_of_byte (b : byte) : Z := Z.of_N (Byte.to_N b).

(** Modelled from the spec: the u8, u16 and u32 fields of the header.  The
    spec does not give the byte order; the most significant byte is written
    first here, and the properties below do not depend on the choice. *)
Definition write_u8 (z : Z) : bytes := [byte_of_Z z].

(** Modelled from the spec: a u16 field, most significant byte first. *)
Definition write_u16 (z : Z) : bytes := [byte_of_Z (z / 2 ^ 8); byte_of_Z z].

(** Modelled from the spec: a u32 field, most significant byte first. *)
Definition write_u32 (z : Z) : bytes :=
  [byte_of_Z (z / 2 ^ 24); byte_of_Z (z / 2 ^ 16); byte_of_Z (z / 2 ^ 8);
   byte_of_Z z].

(** Modelled from the spec: the value of a u16 field. *)
Definition read_u16 (b1 b0 : byte) : Z := Z_of_byte b1 * 2 ^ 8 + Z_of_byte b0.

(** Modelled from the spec: the value of a u32 field. *)
Definition read_u32 (b3 b2 b1 b0 : byte) : Z :=
  Z_of_byte b3 * 2 ^ 24 + Z_of_byte b2 * 2 ^ 16 + Z_of_byte b1 * 2 ^ 8 +
  Z_of_byte b0.

(** Modelled from the spec: writes by serializing header then payload,
    ensuring [size] is set to total length. *)
Definition encode (F : Frame) : bytes :=
  write_u16 (size F) ++ write_u8 (type_code (frame_type F)) ++ write_u8 0 ++
  write_u32 (frame_id F) ++ replicate 8 x00 ++ payload F.

(** Modelled from the spec: what reading a frame off a stream gives, the
    frame and the rest of the stream, or [ProtocolError.BadFrame]. *)
Inductive Decoded : Type :=
  | Read (F : Frame) (rest : bytes)
  | BadFrame.

(** Modelled from the spec: reads [n] bytes off the stream, if it has that
    many; if not, the stream is truncated. *)
Definition read_bytes (n : nat) (stream : bytes) : option (bytes * bytes) :=
  if (n <=? length stream)%nat then Some (take n stream, drop n stream) else None.

(** Modelled from the spec: reads a u16 length, then reads [size − 2] bytes;
    parses header and payload; fails with [ProtocolError.BadFrame] if
    [size < 16] or truncated.  The spec does not say what is done with a
    type byte outside the enumeration; it is refused here. *)
Definition decode (stream : bytes) : Decoded :=
  match read_bytes 2 stream with
  | Some ([s1; s0], stream) =>
      let size := read_u16 s1 s0 in
      if size <? HEADER_SIZE then BadFrame
      else
        match read_bytes (Z.to_nat (size - 2)) stream with
        | Some (t :: _ :: i3 :: i2 :: i1 :: i0 :: tail, rest) =>
            match type_of_code (Z_of_byte t) with
            | Some type =>
                Read {| frame_type := type;
                        frame_id := read_u32 i3 i2 i1 i0;
                        payload := drop 8 tail |} rest
            | None => BadFrame
            end
        | _ => BadFrame
        end
  | _ => BadFrame
  end.

(** ** An example service *)

(** The key-value service of [examples/benchmark/thrift/server.py]:
    [getValue] returns a string or raises the declared [NotFoundError],
    [setValue] returns nothing.  [notify] is a oneway function added to
    exercise the checks on those. *)
Module KeyValue.

Definition NotFoundError : ExcClass := Subclass "NotFoundError" Exception.

Definition getValue_spec : FunctionSpec :=
  {| func_name := "getValue"; func_oneway := false;
     surface :=
       {| surface_name := "getValue";
          request := {| request_cls_name := "getValue_request";
                        request_cls_fields := ["key"] |};
          response :=
            {| response_cls_name := "getValue_response";
               type_spec :=
                 {| return_spec := Some "string";
                    exception_specs :=
                      [{| field_name := "notFound";
                          field_surface := NotFoundError |}] |} |} |} |}.

Definition setValue_spec : FunctionSpec :=
  {| func_name := "setValue"; func_oneway := false;
     surface :=
       {| surface_name := "setValue";
          request := {| request_cls_name := "setValue_request";
                        request_cls_fields := ["key"; "value"] |};
          response :=
            {| response_cls_name := "setValue_response";
               type_spec := {| return_spec := None;
                               exception_specs := [] |} |} |} |}.

Definition notify_spec : FunctionSpec :=
  {| func_name := "notify"; func_oneway := true;
     surface :=
       {| surface_name := "notify";
          request := {| request_cls_name := "notify_request";
                        request_cls_fields := ["key"] |};
          response :=
            {| response_cls_name := "notify_response";
               type_spec := {| return_spec := None;
                               exception_specs := [] |} |} |} |}.

Definition cls : ServiceCls :=
  {| service_spec :=
       {| service_name := "KeyValue";
          functions := [getValue_spec; setValue_spec; notify_spec] |} |}.

Definition thrift_module : ThriftModule :=
  {| module_name_of := "keyvalue"; services := [cls] |}.

(** The module as [load('keyvalue.thrift', 'keyvalue')] wraps it. *)
Definition module : TChannelThriftModule :=
  {| service := Some "keyvalue"; module := thrift_module; hostport := None |}.

(** [Service(cls, module)], with the table its constructor leaves. *)
Definition service : Service :=
  {| _module := module; _cls := cls;
     function_attrs :=
       <["notify" := notify_spec]>
         (<["setValue" := setValue_spec]> (<["getValue" := getValue_spec]> ∅)) |}.

Definition getValue_function : Function := Function_init getValue_spec service.
Definition setValue_function : Function := Function_init setValue_spec service.
Definition notify_function : Function := Function_init notify_spec service.

(** [values = {'hello': 'world'}] *)
Definition values : gmap string string := {[ "hello" := "world" ]}.

(** The handler [getValue]; the request body is the key. *)
Definition getValue : Handler Mixed :=
  {| __name__ := "getValue";
     call := λ request,
       match request_body request with
       | PyStr key =>
           match values !! key with
           | Some value => Returns (MixedVal (PyStr value))
           | None => Raises (Exc (MkExc NotFoundError key))
           end
       | _ => Raises (Exc (MkExc AttributeError "key"))
       end |}.

(** The handler [setValue], which returns nothing; the table it updates is
    not part of what it returns. *)
Definition setValue : Handler Mixed :=
  {| __name__ := "setValue";
     call := λ _, Returns (MixedVal PyNone) |}.

(** A handler that is interrupted from the keyboard. *)
Definition interrupted : Handler Mixed :=
  {| __name__ := "getValue";
     call := λ _, Raises (BaseExc "KeyboardInterrupt" EmptyString) |}.

(** A handler written like the body of a coroutine, but not decorated as
    one: it raises [gen.Return('world')]. *)
Definition returning : Handler Mixed :=
  {| __name__ := "getValue";
     call := λ _, Raises (Exc (MkExc Return "world")) |}.

(** A handler that lets the [StopIteration] of an exhausted iterator out. *)
Definition exhausted : Handler Mixed :=
  {| __name__ := "getValue";
     call := λ _, Raises (Exc (MkExc StopIteration EmptyString)) |}.

(** A handler that returns a number. *)
Definition counting : Handler Mixed :=
  {| __name__ := "getValue";
     call := λ _, Returns (MixedVal (PyInt 5)) |}.

(** A service with a function called [_spec]. *)
Definition shadowing_spec : FunctionSpec :=
  {| func_name := "_spec"; func_oneway := false;
     surface :=
       {| surface_name := "_spec";
          request := {| request_cls_name := "_spec_request";
                        request_cls_fields := [] |};
          response :=
            {| response_cls_name := "_spec_response";
               type_spec := {| return_spec := None;
                               exception_specs := [] |} |} |} |}.

Definition shadowing_cls : ServiceCls :=
  {| service_spec :=
       {| service_name := "Shadowing";
          functions := [getValue_spec; shadowing_spec] |} |}.

(** Collaborators to run the definitions with: a request constructor that
    takes the arguments in the order of the fields, an empty [Response()],
    a [response_from_mixed] that takes a bare value for the body, a loader
    that knows one file, a response class that wants a string where the
    function returns a string, the data descriptors of Python 2 objects, a
    [gen.Return] that carries the text it was made with, and generators as
    Python 2 has them. *)
#[local] Instance collaborators : Collaborators :=
  {| request_new := λ cls args kwargs,
       if (length args + length kwargs <=? length (request_cls_fields cls))%nat
       then Returns {| call_args_cls := cls;
                       call_args_values :=
                         zip (request_cls_fields cls) args ++ kwargs |}
       else Raises (Exc (MkExc (Subclass "TypeError" Exception)
                           "too many arguments"));
     Response_new := {| status := OK; headers := PyNone; body := PyNone |};
     response_from_mixed := λ mixed,
       match mixed with
       | MixedVal v => {| status := OK; headers := PyNone; body := v |}
       | MixedResponse r => r
       end;
     thriftrw_load := λ path name,
       if bool_decide (path = Some "keyvalue.thrift")
       then Returns thrift_module
       else Raises (Exc (MkExc (Subclass "IOError" Exception)
                           "No such file or directory"));
     object_attr := λ name,
       if bool_decide (name ∈ ["__class__"; "__doc__"; "__dict__"])
       then Some true else None;
     instance_setattr_error := λ name,
       if bool_decide (name ∈ ["__class__"; "__dict__"]) then
         Some (MkExc TypeError (name ++ " must be set to another kind of object"))
       else if bool_decide (name = "__weakref__") then
         Some (MkExc AttributeError "attribute '__weakref__' is not writable")
       else None;
     module_setattr_error := λ name,
       if bool_decide (name ∈ ["__class__"; "__dict__"]) then
         Some (MkExc TypeError (name ++ " must be set to another kind of object"))
       else None;
     success_error := λ cls value,
       match return_spec (type_spec cls), value with
       | Some "string", PyStr _ => None
       | Some "string", _ =>
           Some (MkExc TypeError "success must be a string")
       | _, _ => None
       end;
     value_from_stopiteration := λ e,
       if isinstance e Return then MixedVal (PyStr (exc_message e))
       else MixedVal PyNone;
     generator_stop := false |}.

Definition hello : Request :=
  {| request_headers := PyNone; request_body := PyStr "hello" |}.
Definition goodbye : Request :=
  {| request_headers := PyNone; request_body := PyStr "goodbye" |}.

(** The request [KeyValue.getValue('goodbye')] builds. *)
Definition getValue_request : ThriftRWRequest :=
  {| request_module := module;
     request_service := Some "keyvalue";
     request_endpoint := "KeyValue::getValue";
     result_type := response (surface getValue_spec);
     call_args := {| call_args_cls := request (surface getValue_spec);
                     call_args_values := [("key", PyStr "goodbye")] |};
     request_hostport := None;
     serializer :=
       Build_ThriftRWSerializer module (response (surface getValue_spec)) |}.

(** The request [KeyValue.setValue('hello', 'there')] builds. *)
Definition setValue_request : ThriftRWRequest :=
  {| request_module := module;
     request_service := Some "keyvalue";
     request_endpoint := "KeyValue::setValue";
     result_type := response (surface setValue_spec);
     call_args := {| call_args_cls := request (surface setValue_spec);
                     call_args_values :=
                       [("key", PyStr "hello"); ("value", PyStr "there")] |};
     request_hostport := None;
     serializer :=
       Build_ThriftRWSerializer module (response (surface setValue_spec)) |}.

(** Response unions of [getValue]: one with both the exception and a success
    value set, one with nothing set. *)
Definition not_found_body : ResultUnion :=
  {| result_cls := response (surface getValue_spec);
     success := PyStr "world";
     exception_attrs := {[ "notFound" := MkExc NotFoundError "goodbye" ]} |}.

Definition empty_body : ResultUnion :=
  {| result_cls := response (surface getValue_spec);
     success := PyNone;
     exception_attrs := ∅ |}.

(** The response union of a [setValue] that went through. *)
Definition void_body : ResultUnion :=
  {| result_cls := response (surface setValue_spec);
     success := PyNone;
     exception_attrs := ∅ |}.

End KeyValue.

(** ** An echo service *)

(** A channel whose peer answers every call with the call's own arg2 and
    arg3, and a scheme over byte strings that leaves them as they are. *)
Module Echo.

Definition echo (kwargs : CallKwargs) : result (Response bytes bytes) :=
  Returns {| status := OK; headers := arg2 kwargs; body := arg3 kwargs |}.

Definition tchannel : TChannel :=
  {| responds := echo;
     registers := λ kwargs, Returns PyNone;
     calls := [];
     registrations := [] |}.

#[local] Instance raw : Scheme bytes :=
  {| serialize_header := id; serialize_body := id;
     deserialize_header := id; deserialize_body := id |}.

Definition ping : bytes := [x70; x69; x6e; x67].
Definition pong : bytes := [x70; x6f; x6e; x67].

End Echo.

(** ** [examples/benchmark/thrift/server.py] *)

(** The two handlers of the benchmark server over the dictionary [values]
    they share.  The module-level dictionary is passed in, and [setValue]
    hands back the dictionary it leaves. *)
Module Server.

(** The body of a [getValue] request: [request.body.key]. *)
Record getValue_args : Type := {
  getValue_key : string;
}.

(** The body of a [setValue] request: [request.body.key] and
    [request.body.value]. *)
Record setValue_args : Type := {
  setValue_key : string;
  setValue_value : PyVal;
}.

(** [values = {'hello': 'world'}], as the module starts. *)
Definition values : gmap string PyVal := {[ "hello" := PyStr "world" ]}.

(** [values.get(key)]: [None] for a key that is not there. *)
Definition dict_get (values : gmap string PyVal) (key : string) : PyVal :=
  default PyNone (values !! key).

(** [getValue(request)] *)
Definition getValue (values : gmap string PyVal) (body : getValue_args)
    : result PyVal :=
  let key := getValue_key body in
  let value := dict_get values key in
  if is_None value then
    Raises (Exc (MkExc KeyValue.NotFoundError key))
  else Returns value.

(** [setValue(request)]: returns nothing, and leaves [values[key] = value]. *)
Definition setValue (values : gmap string PyVal) (body : setValue_args)
    : result PyVal * gmap string PyVal :=
  let key := setValue_key body in
  let value := setValue_value body in
  (Returns PyNone, <[key := value]> values).

End Server.

(** * Properties *)

Open Scope list_scope.

(** ** Classes and instances *)

Lemma issubclass_refl (c : ExcClass) : issubclass c c = true.
Proof.
  destruct c as [|name base]; [done|].
  change (bool_decide (Subclass name base = Subclass name base) ||
          issubclass base (Subclass name base) = true).
  by rewrite bool_decide_eq_true_2.
Qed.

Lemma issubclass_base (name : string) (base d : ExcClass) :
  issubclass base d = true → issubclass (Subclass name base) d = true.
Proof. intros Hb. simpl. rewrite Hb. apply orb_true_r. Qed.

Lemma issubclass_trans (c d e : ExcClass) :
  issubclass c d = true → issubclass d e = true → issubclass c e = true.
Proof.
  induction c as [|name base IH]; simpl; intros Hcd Hde.
  - apply orb_true_iff in Hcd as [Hcd|Hcd]; [|done].
    apply bool_decide_eq_true in Hcd. by subst d.
  - apply orb_true_iff in Hcd as [Hcd|Hcd].
    + apply bool_decide_eq_true in Hcd. by subst d.
    + rewrite (IH Hcd Hde). apply orb_true_r.
Qed.

Lemma issubclass_Exception (c : ExcClass) : issubclass c Exception = true.
Proof.
  induction c as [|name base IH]; [done|].
  apply issubclass_base, IH.
Qed.

(** ** The two loops over the declared exceptions *)

(** [matching_exc_spec] finds the first declared exception, in declaration
    order, whose class the raised exception is an instance of. *)
Lemma matching_exc_spec_Some (exc_specs : list FieldSpec) (e : ExcInstance)
    (exc_spec : FieldSpec) :
  matching_exc_spec exc_specs e = Some exc_spec ↔
  ∃ pre post, exc_specs = pre ++ exc_spec :: post ∧
    (∀ s, s ∈ pre → isinstance e (field_surface s) = false) ∧
    isinstance e (field_surface exc_spec) = true.
Proof.
  induction exc_specs as [|s rest IH]; simpl.
  - split; [done|]. intros ([|]&post&Heq&_); discriminate Heq.
  - destruct (isinstance e (field_surface s)) eqn:Hs.
    + split.
      * intros [= <-]. exists [], rest.
        split_and!; [done| |done]. intros s' Hs'. by apply elem_of_nil in Hs'.
      * intros ([|s' pre]&post&Heq&Hpre&Hm); simplify_eq/=; try done.
        rewrite Hpre in Hs; [done|by left].
    + rewrite IH. split.
      * intros (pre&post&->&Hpre&Hm). exists (s :: pre), post.
        split_and!; [done| |done].
        intros s' [->|?]%elem_of_cons; auto.
      * intros ([|s' pre]&post&Heq&Hpre&Hm); simplify_eq/=; try congruence.
        exists pre, post. split_and!; [done| |done].
        intros s'' ?. apply Hpre. by right.
Qed.

Lemma matching_exc_spec_None (exc_specs : list FieldSpec) (e : ExcInstance) :
  matching_exc_spec exc_specs e = None ↔
  ∀ s, s ∈ exc_specs → isinstance e (field_surface s) = false.
Proof.
  induction exc_specs as [|s rest IH]; simpl.
  - split; [|done]. intros _ s Hs. by apply elem_of_nil in Hs.
  - destruct (isinstance e (field_surface s)) eqn:Hs.
    + split; [done|]. intros Hall. rewrite Hall in Hs; [done|by left].
    + rewrite IH. split.
      * intros Hall s' [->|?]%elem_of_cons; auto.
      * intros Hall s' ?. apply Hall. by right.
Qed.

(** [first_exception] finds the value of the first declared exception field,
    in declaration order, that is not [None]. *)
Lemma first_exception_Some (exc_specs : list FieldSpec) (body : ResultUnion)
    (exc : ExcInstance) :
  first_exception exc_specs body = Some exc ↔
  ∃ pre exc_spec post, exc_specs = pre ++ exc_spec :: post ∧
    (∀ s, s ∈ pre → ResultUnion_getattr body (field_name s) = None) ∧
    ResultUnion_getattr body (field_name exc_spec) = Some exc.
Proof.
  induction exc_specs as [|s rest IH]; simpl.
  - split; [done|]. intros ([|]&?&post&Heq&_); discriminate Heq.
  - destruct (ResultUnion_getattr body (field_name s)) as [exc'|] eqn:Hs.
    + split.
      * intros [= <-]. exists [], s, rest.
        split_and!; [done| |done]. intros s' Hs'. by apply elem_of_nil in Hs'.
      * intros ([|s' pre]&s''&post&Heq&Hpre&Hm); simplify_eq/=; try congruence.
        rewrite Hpre in Hs; [done|by left].
    + rewrite IH. split.
      * intros (pre&s'&post&->&Hpre&Hm). exists (s :: pre), s', post.
        split_and!; [done| |done].
        intros s'' [->|?]%elem_of_cons; auto.
      * intros ([|s' pre]&s''&post&Heq&Hpre&Hm); simplify_eq/=; try congruence.
        exists pre, s'', post. split_and!; [done| |done].
        intros s3 ?. apply Hpre. by right.
Qed.

Lemma first_exception_None (exc_specs : list FieldSpec) (body : ResultUnion) :
  first_exception exc_specs body = None ↔
  ∀ s, s ∈ exc_specs → ResultUnion_getattr body (field_name s) = None.
Proof.
  induction exc_specs as [|s rest IH]; simpl.
  - split; [|done]. intros _ s Hs. by apply elem_of_nil in Hs.
  - destruct (ResultUnion_getattr body (field_name s)) as [exc'|] eqn:Hs.
    + split; [done|]. intros Hall. rewrite Hall in Hs; [done|by left].
    + rewrite IH. split.
      * intros Hall s' [->|?]%elem_of_cons; auto.
      * intros Hall s' ?. apply Hall. by right.
Qed.

(** ** Handlers built by [build_handler] *)

(** C1, as amended.  When the user handler raises an exception that is an
    instance of one of the function's declared exception classes, the
    handler built by [build_handler] returns a response: its status is
    [FAILED], which is [0x01], and its body is the response union with the
    exception in the field of the first declared class it is an instance of,
    and nothing in the other fields.  When the handler raises anything that
    is an instance of none of the declared classes and is neither a
    [tornado.gen.Return] nor a [StopIteration], the built handler raises the
    very same thing.  An undeclared [tornado.gen.Return] is the return of
    the coroutine: the built handler returns the value it carries.  So is an
    undeclared [StopIteration], except where the interpreter turns a
    [StopIteration] that leaves a generator into a [RuntimeError], which the
    built handler then raises. *)
Theorem build_handler_declared_exception `{Collaborators}
    (function : Function) (handler : Handler Mixed) (request : Request)
    (raised : Raised) :
  call handler request = Raises raised →
  let exc_specs := exception_specs (type_spec (response_cls function)) in
  (∀ e : ExcInstance,
     raised = Exc e →
     (∃ declared, declared ∈ exc_specs ∧
        isinstance e (field_surface declared) = true) →
     ∃ pre exc_spec post,
       exc_specs = pre ++ exc_spec :: post ∧
       (∀ s, s ∈ pre → isinstance e (field_surface s) = false) ∧
       isinstance e (field_surface exc_spec) = true ∧
       ∃ response,
         call (build_handler function handler) request =
           Returns (Built response) ∧
         status response = FAILED ∧ status response = 0x01 ∧
         body response =
           {| result_cls := response_cls function;
              success := PyNone;
              exception_attrs := {[ field_name exc_spec := e ]} |}) ∧
  ((∀ e declared,
      raised = Exc e → declared ∈ exc_specs →
      isinstance e (field_surface declared) = false) →
   ((∀ e, raised = Exc e →
          isinstance e Return = false ∧ isinstance e StopIteration = false) →
    call (build_handler function handler) request = Raises raised) ∧
   (∀ e, raised = Exc e → isinstance e Return = true →
         call (build_handler function handler) request =
           Returns (Escaped (value_from_stopiteration e))) ∧
   (∀ e, raised = Exc e →
         isinstance e Return = false → isinstance e StopIteration = true →
         call (build_handler function handler) request =
           if generator_stop
           then Raises (Exc (MkExc RuntimeError "generator raised StopIteration"))
           else Returns (Escaped (value_from_stopiteration e)))).
Proof.
  intros Hraise exc_specs. split.
  - intros e -> (declared & Hin & Hinst).
    destruct (matching_exc_spec exc_specs e) as [exc_spec|] eqn:Hmatch.
    + pose proof Hmatch as (pre & post & Heq & Hpre & Hm)%matching_exc_spec_Some.
      exists pre, exc_spec, post. split_and!; [done..|].
      eexists. split.
      * simpl. unfold handle, handle_generator. rewrite Hraise. fold exc_specs.
        rewrite Hmatch. reflexivity.
      * done.
    + pose proof (proj1 (matching_exc_spec_None _ _) Hmatch _ Hin). congruence.
  - intros Hnone.
    assert (handle_generator function handler request = Raises raised) as Hgen.
    { unfold handle_generator. rewrite Hraise.
      destruct raised as [e|name message]; [|done].
      fold exc_specs.
      rewrite (proj2 (matching_exc_spec_None exc_specs e)); [done|].
      intros s Hs. by apply Hnone. }
    simpl. unfold handle. rewrite Hgen. split_and!.
    + intros Hplain. destruct raised as [e|name message]; [|done].
      destruct (Hplain e eq_refl) as [Hreturn Hstop]. simpl.
      by rewrite Hreturn, Hstop.
    + intros e -> Hreturn. simpl. by rewrite Hreturn.
    + intros e -> Hreturn Hstop. simpl. by rewrite Hreturn, Hstop.
Qed.

Lemma build_handler_declared_exception_witness :
  call KeyValue.getValue KeyValue.goodbye =
    Raises (Exc (MkExc KeyValue.NotFoundError "goodbye")) ∧
  ∃ response,
    call (build_handler (H := KeyValue.collaborators)
            KeyValue.getValue_function KeyValue.getValue) KeyValue.goodbye =
      Returns (Built response) ∧
    status response = 1 ∧
    exception_attrs (body response) =
      {[ "notFound" := MkExc KeyValue.NotFoundError "goodbye" ]}.
Proof.
  split; [reflexivity|].
  destruct (build_handler_declared_exception (H := KeyValue.collaborators)
              KeyValue.getValue_function KeyValue.getValue KeyValue.goodbye
              (Exc (MkExc KeyValue.NotFoundError "goodbye")) eq_refl)
    as [Hdeclared _].
  destruct (Hdeclared (MkExc KeyValue.NotFoundError "goodbye") eq_refl)
    as (pre & exc_spec & post & Heq & _ & _ & response & Hcall & _ & Hstatus & Hbody).
  - eexists. split; [by left|]. reflexivity.
  - exists response. split_and!; [exact Hcall|exact Hstatus|].
    rewrite Hbody. simpl.
    destruct pre as [|? [|? ?]]; simpl in Heq; [|discriminate Heq..].
    injection Heq as <- _. reflexivity.
Defined.

(** C1 as it was stated fails: a handler that raises [gen.Return('world')],
    which is an instance of no declared exception class of [getValue], does
    not make the built handler raise it; the built handler returns
    ['world']. *)
Lemma build_handler_propagates_counterexample :
  call KeyValue.returning KeyValue.hello = Raises (Exc (MkExc Return "world")) ∧
  (∀ declared,
     declared ∈ exception_specs
                  (type_spec (response_cls KeyValue.getValue_function)) →
     isinstance (MkExc Return "world") (field_surface declared) = false) ∧
  call (build_handler (H := KeyValue.collaborators)
          KeyValue.getValue_function KeyValue.returning) KeyValue.hello =
    Returns (Escaped (MixedVal (PyStr "world"))) ∧
  call (build_handler (H := KeyValue.collaborators)
          KeyValue.getValue_function KeyValue.returning) KeyValue.hello ≠
    Raises (Exc (MkExc Return "world")).
Proof.
  split_and!; [reflexivity| |reflexivity|discriminate].
  intros declared Hin. apply list_elem_of_In in Hin. simpl in Hin.
  destruct Hin as [<-|[]]. reflexivity.
Qed.

(** When the user handler returns a response the response class accepts, the
    built handler returns a response with status [OK]; the success field is
    set for a function that returns a value. *)
Lemma build_handler_returns `{Collaborators}
    (function : Function) (handler : Handler Mixed) (request : Request)
    (mixed : Mixed) :
  call handler request = Returns mixed →
  (is_None (body (response_from_mixed mixed)) = false ∧
   success_error (response_cls function) (body (response_from_mixed mixed)) =
     None) ∨
  return_spec (type_spec (response_cls function)) = None →
  ∃ response,
    call (build_handler function handler) request = Returns (Built response) ∧
    status response = OK ∧
    headers response = headers (response_from_mixed mixed) ∧
    exception_attrs (body response) = ∅ ∧
    success (body response) =
      match return_spec (type_spec (response_cls function)) with
      | Some _ => body (response_from_mixed mixed)
      | None => PyNone
      end.
Proof.
  intros Hret Hok. simpl. unfold handle, handle_generator. rewrite Hret.
  destruct (return_spec _) as [t|].
  - destruct Hok as [[Hbody Hvalid]|?]; [|done]. rewrite Hbody, Hvalid.
    by eexists.
  - by eexists.
Qed.

(** ** Reading the body of a response *)

(** C2.  When the response union holds a value other than [None] in one of
    the declared exception fields, [read_body] raises the value of the first
    such field in declaration order, and returns nothing, whatever the
    success field holds. *)
Theorem read_body_raises_first_exception
    (self : ThriftRWRequest) (body : ResultUnion) :
  let exc_specs := exception_specs (type_spec (result_type self)) in
  (∃ declared, declared ∈ exc_specs ∧
     ResultUnion_getattr body (field_name declared) ≠ None) →
  ∃ pre exc_spec post exc,
    exc_specs = pre ++ exc_spec :: post ∧
    (∀ s, s ∈ pre → ResultUnion_getattr body (field_name s) = None) ∧
    ResultUnion_getattr body (field_name exc_spec) = Some exc ∧
    read_body self body = Raises (Exc exc) ∧
    ∀ value, read_body self body ≠ Returns value.
Proof.
  intros exc_specs (declared & Hin & Hset).
  destruct (first_exception exc_specs body) as [exc|] eqn:Hfirst.
  - pose proof Hfirst as (pre & exc_spec & post & Heq & Hpre & Hexc)%first_exception_Some.
    exists pre, exc_spec, post, exc.
    assert (read_body self body = Raises (Exc exc)) as Hread.
    { unfold read_body. fold exc_specs. by rewrite Hfirst. }
    split_and!; [done..|]. intros value. by rewrite Hread.
  - destruct Hset. by apply (proj1 (first_exception_None _ _) Hfirst).
Qed.

Lemma read_body_raises_first_exception_witness :
  (∃ declared,
     declared ∈ exception_specs (type_spec (result_type KeyValue.getValue_request)) ∧
     ResultUnion_getattr KeyValue.not_found_body (field_name declared) ≠ None) ∧
  ∃ exc,
    read_body KeyValue.getValue_request KeyValue.not_found_body = Raises (Exc exc) ∧
    success KeyValue.not_found_body = PyStr "world".
Proof.
  assert (∃ declared,
     declared ∈ exception_specs (type_spec (result_type KeyValue.getValue_request)) ∧
     ResultUnion_getattr KeyValue.not_found_body (field_name declared) ≠ None)
    as Hset.
  { eexists. split; [by left|]. by vm_compute. }
  split; [exact Hset|].
  destruct (read_body_raises_first_exception
              KeyValue.getValue_request KeyValue.not_found_body Hset)
    as (_ & _ & _ & exc & _ & _ & _ & Hread & _).
  exists exc. split; [exact Hread|reflexivity].
Defined.

(** C3.  For a function that returns a value, a response union with no
    declared exception set and no success value makes [read_body] raise
    [ValueExpectedError]; and a handler whose response for such a function
    has no body makes the built handler raise an [AssertionError] instead of
    returning a response.  For a void function, [read_body] returns [None]
    when no declared exception is set. *)
Theorem value_expected `{Collaborators} :
  (∀ (self : ThriftRWRequest) (body : ResultUnion),
     is_Some (return_spec (type_spec (result_type self))) →
     (∀ s, s ∈ exception_specs (type_spec (result_type self)) →
           ResultUnion_getattr body (field_name s) = None) →
     success body = PyNone →
     read_body self body =
       Raises (Exc (MkExc ValueExpectedError
                      (expected_a_value (request_endpoint self))))) ∧
  (∀ (function : Function) (handler : Handler Mixed) (request : Request)
     (returned : Mixed),
     is_Some (return_spec (type_spec (response_cls function))) →
     call handler request = Returns returned →
     body (response_from_mixed returned) = PyNone →
     call (build_handler function handler) request =
       Raises (Exc (MkExc AssertionError (expected_a_value (endpoint function))))) ∧
  (∀ (self : ThriftRWRequest) (body : ResultUnion),
     return_spec (type_spec (result_type self)) = None →
     (∀ s, s ∈ exception_specs (type_spec (result_type self)) →
           ResultUnion_getattr body (field_name s) = None) →
     read_body self body = Returns PyNone).
Proof.
  split_and!.
  - intros self body [t Ht] Hnone Hsuccess. unfold read_body.
    rewrite (proj2 (first_exception_None _ _) Hnone), Ht, Hsuccess. done.
  - intros function handler request returned [t Ht] Hret Hbody.
    simpl. unfold handle, handle_generator. rewrite Hret, Ht, Hbody. done.
  - intros self body Hvoid Hnone. unfold read_body.
    rewrite (proj2 (first_exception_None _ _) Hnone), Hvoid. done.
Qed.

Lemma value_expected_witness :
  read_body KeyValue.getValue_request KeyValue.empty_body =
    Raises (Exc (MkExc ValueExpectedError
                   (expected_a_value "KeyValue::getValue"))) ∧
  call (build_handler (H := KeyValue.collaborators)
          KeyValue.getValue_function KeyValue.setValue) KeyValue.hello =
    Raises (Exc (MkExc AssertionError (expected_a_value "KeyValue::getValue"))) ∧
  read_body KeyValue.setValue_request KeyValue.void_body = Returns PyNone.
Proof.
  destruct (value_expected (H := KeyValue.collaborators))
    as (Hclient & Hserver & Hvoid).
  split_and!.
  - apply (Hclient KeyValue.getValue_request KeyValue.empty_body).
    + by eexists.
    + intros s Hs. reflexivity.
    + reflexivity.
  - apply (Hserver KeyValue.getValue_function KeyValue.setValue KeyValue.hello
             (MixedVal PyNone)).
    + by eexists.
    + reflexivity.
    + reflexivity.
  - apply (Hvoid KeyValue.setValue_request KeyValue.void_body).
    + reflexivity.
    + intros s Hs. reflexivity.
Defined.

(** ** The attributes of a [Service] *)

Lemma leaves_Intact {A : Type} (object object' : A) (replaced : list string) :
  leaves object replaced = Intact object' ↔ replaced = [] ∧ object' = object.
Proof.
  destruct replaced as [|name replaced]; simpl.
  - split; [by intros [= <-]|by intros [_ ->]].
  - split; [discriminate|]. by intros [[=] _].
Qed.

Lemma stored_leaves {A : Type} (object : A) (replaced : list string) :
  stored (leaves object replaced) = object.
Proof. by destruct replaced. Qed.

Lemma Service_setattrs_lookup `{Collaborators} (fns : list FunctionSpec)
    (attrs attrs' : gmap string FunctionSpec) (replaced replaced' : list string) :
  Service_setattrs fns attrs replaced = Returns (attrs', replaced') →
  NoDup (func_name <$> fns) →
  ∀ name func_spec,
    attrs' !! name = Some func_spec ↔
    (func_spec ∈ fns ∧ func_name func_spec = name) ∨
    ((name ∉ func_name <$> fns) ∧ attrs !! name = Some func_spec).
Proof.
  revert attrs replaced.
  induction fns as [|f rest IH]; simpl; intros attrs replaced Hset Hnodup.
  - injection Hset as <- _. intros name func_spec. split.
    + intros Hlook. right. split; [apply not_elem_of_nil|done].
    + intros [[Hin _]|[_ Hlook]]; [by apply elem_of_nil in Hin|done].
  - apply NoDup_cons in Hnodup as [Hfresh Hnodup].
    assert (∃ replaced0,
      Service_setattrs rest (<[func_name f := f]> attrs) replaced0 =
        Returns (attrs', replaced')) as [replaced0 Hrest].
    { destruct (Service_setattr (func_name f)); [by eexists..|discriminate]. }
    intros name func_spec. rewrite (IH _ _ Hrest Hnodup name func_spec).
    rewrite lookup_insert. case_decide as Hname.
    + subst name. split.
      * intros [[Hin Heq]|[_ [= <-]]]; [|left; split; [by left|done]].
        destruct Hfresh. rewrite <- Heq. by apply list_elem_of_fmap_2.
      * intros [[[->|Hin]%elem_of_cons Heq]|[Hnot _]].
        -- right. split; [done|done].
        -- destruct Hfresh. rewrite <- Heq. by apply list_elem_of_fmap_2.
        -- destruct Hnot. by left.
    + split.
      * intros [[Hin Heq]|[Hnot Hlook]].
        -- left. split; [by right|done].
        -- right. split; [|done].
           intros [?|?]%elem_of_cons; [congruence|done].
      * intros [[[->|Hin]%elem_of_cons Heq]|[Hnot Hlook]].
        -- done.
        -- left. done.
        -- right. split; [|done]. intros ?. apply Hnot. by right.
Qed.

(** The loop returns only if no [setattr] was refused, and it names every
    attribute that was replaced. *)
Lemma Service_setattrs_Returns_inv `{Collaborators} (fns : list FunctionSpec)
    (attrs attrs' : gmap string FunctionSpec) (replaced replaced' : list string) :
  Service_setattrs fns attrs replaced = Returns (attrs', replaced') →
  (∀ f, f ∈ fns → Service_setattr (func_name f) = Stored ∨
                  Service_setattr (func_name f) = Replaced) ∧
  (replaced' = [] →
   replaced = [] ∧ ∀ f, f ∈ fns → Service_setattr (func_name f) = Stored) ∧
  ((∃ f, f ∈ fns ∧ Service_setattr (func_name f) = Replaced) →
   replaced' ≠ []).
Proof.
  revert attrs replaced.
  induction fns as [|f rest IH]; simpl; intros attrs replaced Hset.
  - injection Hset as <- <-. split_and!.
    + intros f Hin. by apply elem_of_nil in Hin.
    + intros ->. split; [done|]. intros f Hin. by apply elem_of_nil in Hin.
    + intros (f & Hin & _). by apply elem_of_nil in Hin.
  - destruct (Service_setattr (func_name f)) eqn:Hf; [| |discriminate].
    + destruct (IH _ _ Hset) as (Hall & Hnil & Hsome). split_and!.
      * intros g [->|Hg]%elem_of_cons; [by left|by apply Hall].
      * intros Hempty. destruct (Hnil Hempty) as [-> Hstored].
        split; [done|]. intros g [->|Hg]%elem_of_cons; [done|by apply Hstored].
      * intros (g & [->|Hg]%elem_of_cons & Hrep); [congruence|].
        apply Hsome. by exists g.
    + destruct (IH _ _ Hset) as (Hall & Hnil & Hsome). split_and!.
      * intros g [->|Hg]%elem_of_cons; [by right|by apply Hall].
      * intros Hempty. destruct (Hnil Hempty) as [Happ _].
        by destruct replaced.
      * intros _ Hempty. destruct (Hnil Hempty) as [Happ _].
        by destruct replaced.
Qed.

Lemma Service_setattrs_Returns `{Collaborators} (fns : list FunctionSpec)
    (attrs : gmap string FunctionSpec) (replaced : list string) :
  (∀ f, f ∈ fns → Service_setattr (func_name f) = Stored ∨
                  Service_setattr (func_name f) = Replaced) →
  ∃ attrs' replaced',
    Service_setattrs fns attrs replaced = Returns (attrs', replaced').
Proof.
  revert attrs replaced.
  induction fns as [|f rest IH]; simpl; intros attrs replaced Hall.
  - by eexists _, _.
  - destruct (Hall f) as [-> | ->]; [by left|..];
      apply IH; intros g Hg; apply Hall; by right.
Qed.

Lemma Service_setattrs_Raises `{Collaborators} (fns : list FunctionSpec)
    (attrs : gmap string FunctionSpec) (replaced : list string)
    (raised : Raised) :
  Service_setattrs fns attrs replaced = Raises raised →
  ∃ f error, f ∈ fns ∧ Service_setattr (func_name f) = Refused error ∧
             raised = Exc error.
Proof.
  revert attrs replaced.
  induction fns as [|f rest IH]; simpl; intros attrs replaced.
  - discriminate.
  - destruct (Service_setattr (func_name f)) as [| |error] eqn:Hf.
    + intros (g & error & Hg & Hrefused & ->)%IH.
      exists g, error. split_and!; [by right|done..].
    + intros (g & error & Hg & Hrefused & ->)%IH.
      exists g, error. split_and!; [by right|done..].
    + intros [= <-]. exists f, error. split_and!; [by left|done..].
Qed.

Lemma Service_setattrs_replaced `{Collaborators} (fns : list FunctionSpec)
    (attrs attrs' : gmap string FunctionSpec) (replaced replaced' : list string) :
  Service_setattrs fns attrs replaced = Returns (attrs', replaced') →
  replaced' = replaced ∨
  ∃ f, f ∈ fns ∧ Service_setattr (func_name f) = Replaced.
Proof.
  revert attrs replaced.
  induction fns as [|f rest IH]; simpl; intros attrs replaced Hset.
  - injection Hset as <- <-. by left.
  - destruct (Service_setattr (func_name f)) eqn:Hf; [| |discriminate].
    + destruct (IH _ _ Hset) as [->|(g & Hg & Hrep)]; [by left|].
      right. exists g. split; [by right|done].
    + right. exists f. split; [by left|done].
Qed.

Lemma Service_setattr_Replaced `{Collaborators} (name : string) :
  Service_setattr name = Replaced → name ∈ ["_module"; "_cls"; "_spec"].
Proof.
  unfold Service_setattr.
  destruct (String.eqb name "name"); [discriminate|].
  destruct (instance_setattr_error name); [discriminate|].
  by case_bool_decide.
Qed.

Lemma Service_setattr_name `{Collaborators} :
  Service_setattr "name" = Refused (MkExc AttributeError "can't set attribute").
Proof. reflexivity. Qed.

(** A service that was wrapped and left intact keeps its module and class,
    and has exactly the declared functions as attributes, under their names;
    none of them is called [name]. *)
Lemma Service_init_attrs `{Collaborators} (cls : ServiceCls)
    (module : TChannelThriftModule) (service : Service) :
  Service_init cls module = Returns (Intact service) →
  NoDup (func_name <$> functions (service_spec cls)) →
  _module service = module ∧ _cls service = cls ∧
  (∀ name func_spec,
     function_attrs service !! name = Some func_spec ↔
     func_spec ∈ functions (service_spec cls) ∧ func_name func_spec = name) ∧
  ∀ func_spec,
    func_spec ∈ functions (service_spec cls) → func_name func_spec ≠ "name".
Proof.
  unfold Service_init. intros Hinit Hnodup.
  destruct (Service_setattrs _ ∅ []) as [[attrs replaced]|] eqn:Hset;
    [|discriminate Hinit].
  simpl in Hinit. injection Hinit as Hinit.
  apply leaves_Intact in Hinit as [-> ->].
  split_and!; [done..| |].
  - intros name func_spec. simpl.
    rewrite (Service_setattrs_lookup _ _ _ _ _ Hset Hnodup). split.
    + intros [?|[_ Hempty]]; [done|]. by rewrite lookup_empty in Hempty.
    + intros ?. by left.
  - intros func_spec Hin Hname.
    destruct (Service_setattrs_Returns_inv _ _ _ _ _ Hset) as (Hall & _).
    destruct (Hall func_spec Hin) as [Hs|Hs];
      rewrite Hname, Service_setattr_name in Hs; discriminate.
Qed.

(** [Service_getattr] finds a function exactly under the names in the
    instance dictionary, [name] apart. *)
Lemma Service_getattr_function `{Collaborators} (service : Service)
    (method : string) (function : Function) :
  Service_getattr service method = Some (AttrFunction function) ↔
  method ≠ "name" ∧
  ∃ func_spec, function_attrs service !! method = Some func_spec ∧
               function = Function_init func_spec service.
Proof.
  unfold Service_getattr.
  destruct (String.eqb_spec method "name") as [->|Hname].
  - split; [discriminate|]. by intros [? _].
  - destruct (function_attrs service !! method) as [func_spec|].
    + split.
      * intros [= <-]. split; [done|]. by exists func_spec.
      * intros (_ & ? & [= <-] & ->). done.
    + split.
      * case_bool_decide; [discriminate|].
        destruct (Service_class_attr method); discriminate.
      * intros (_ & ? & [=] & _).
Qed.

(** Whatever else [Service_getattr] finds makes the registration fail. *)
Lemma decorator_not_function `{Collaborators} (dispatcher : RequestDispatcher)
    (service : Service) (method : option string) (handler : Handler Mixed) :
  (∀ function, Service_getattr service (method_or_name method handler) ≠
     Some (AttrFunction function)) →
  ∃ raised, decorator dispatcher service method handler = (Raises raised, dispatcher).
Proof.
  intros Hnot. unfold decorator.
  destruct (Service_getattr _ _) as [[function|[|]]|]; [|by eexists..].
  by destruct (Hnot function).
Qed.

(** ** Oneway functions *)

(** C4.  Calling the [Function] object of a function whose spec is marked
    oneway raises [OneWayNotSupportedError], whatever the arguments and
    whether or not a request could have been built from them.  Registering
    a handler for such a function fails on the [assert], both when the
    handler is given to [register] and when it is given to the decorator
    [register] returns, and the dispatcher is left as it was. *)
Theorem oneway_not_supported `{Collaborators} :
  (∀ (self : Function) (args : list PyVal) (kwargs : list (string * PyVal)),
     oneway self = true →
     Function_call self args kwargs =
       Raises (Exc (MkExc OneWayNotSupportedError
         "TChannel+Thrift does not currently support oneway procedures."))) ∧
  (∀ (dispatcher : RequestDispatcher) (service : Service)
     (handler : Handler Mixed) (method : option string) (function : Function),
     Service_getattr service (method_or_name method handler) =
       Some (AttrFunction function) →
     oneway function = true →
     register dispatcher service (Some handler) method =
       (Raises (Exc (MkExc AssertionError EmptyString)), dispatcher) ∧
     ∃ apply,
       register dispatcher service None method =
         (Returns (Partial apply), dispatcher) ∧
       apply handler dispatcher =
         (Raises (Exc (MkExc AssertionError EmptyString)), dispatcher)).
Proof.
  split.
  - intros self args kwargs Honeway. unfold Function_call. by rewrite Honeway.
  - intros dispatcher service handler method function Hattr Honeway.
    assert (decorator dispatcher service method handler =
            (Raises (Exc (MkExc AssertionError EmptyString)), dispatcher))
      as Hdecorator.
    { unfold decorator. by rewrite Hattr, Honeway. }
    split.
    + unfold register. by rewrite Hdecorator.
    + eexists. split; [reflexivity|]. exact Hdecorator.
Qed.

Lemma oneway_not_supported_witness :
  Function_call (H := KeyValue.collaborators) KeyValue.notify_function
      [PyStr "hello"] [] =
    Raises (Exc (MkExc OneWayNotSupportedError
      "TChannel+Thrift does not currently support oneway procedures.")) ∧
  register (H := KeyValue.collaborators) {| handlers := ∅ |} KeyValue.service
      (Some KeyValue.setValue) (Some "notify") =
    (Raises (Exc (MkExc AssertionError EmptyString)), {| handlers := ∅ |}).
Proof.
  destruct (oneway_not_supported (H := KeyValue.collaborators))
    as [Hcall Hregister].
  split.
  - apply Hcall. reflexivity.
  - apply (Hregister _ KeyValue.service KeyValue.setValue (Some "notify")
             KeyValue.notify_function); reflexivity.
Defined.

(** ** Registration *)

Example KeyValue_service_init :
  Service_init (H := KeyValue.collaborators) KeyValue.cls KeyValue.module =
  Returns (Intact KeyValue.service).
Proof. reflexivity. Qed.

(** Handing the handler to the decorator [register] returns is the same as
    handing it to [register]. *)
Lemma register_partial `{Collaborators} (dispatcher : RequestDispatcher)
    (service : Service) (method : option string) :
  ∃ apply,
    register dispatcher service None method =
      (Returns (Partial apply), dispatcher) ∧
    ∀ handler dispatcher',
      register dispatcher' service (Some handler) method =
        (Installed <$> (apply handler dispatcher').1,
         (apply handler dispatcher').2).
Proof.
  eexists. split; [reflexivity|]. intros handler dispatcher'.
  unfold register. by destruct (decorator _ _ _ _).
Qed.

(** A registration that fails leaves the dispatcher as it was. *)
Lemma decorator_raises_unchanged `{Collaborators}
    (dispatcher dispatcher' : RequestDispatcher) (service : Service)
    (method : option string) (handler : Handler Mixed) (raised : Raised) :
  decorator dispatcher service method handler = (Raises raised, dispatcher') →
  dispatcher' = dispatcher.
Proof.
  unfold decorator.
  destruct (Service_getattr _ _) as [[function|[|]]|];
    [destruct (oneway function)|..]; congruence.
Qed.

(** C7, at the input where the code fails it.  [_spec] is a declared function
    of the service [Shadowing] and is not oneway, but [Service.__init__]
    sets the [Function] made for it over the attribute [_spec] it has just
    stored; [service.name], which reads [self._spec.name], then raises
    [AttributeError], and so does [function.endpoint] of every function of
    the service, which [register] evaluates to register the handler. *)
Theorem Service_init_overwrites_spec :
  KeyValue.shadowing_spec ∈ functions (service_spec KeyValue.shadowing_cls) ∧
  func_oneway KeyValue.shadowing_spec = false ∧
  ∃ service,
    Service_init (H := KeyValue.collaborators)
      KeyValue.shadowing_cls KeyValue.module =
      Returns (Overwritten service ["_spec"]) ∧
    function_attrs service !! "_spec" = Some KeyValue.shadowing_spec ∧
    constructed_Service_name (Overwritten service ["_spec"]) =
      Raises (Exc (MkExc AttributeError
                     "'Function' object has no attribute 'name'")) ∧
    ∀ func_spec,
      func_spec ∈ functions (service_spec KeyValue.shadowing_cls) →
      constructed_endpoint (Overwritten service ["_spec"]) func_spec =
        Raises (Exc (MkExc AttributeError
                       "'Function' object has no attribute 'name'")).
Proof.
  split; [right; by left|]. split; [reflexivity|].
  eexists. split; [reflexivity|]. split_and!; [reflexivity..|].
  intros func_spec _. reflexivity.
Qed.

(** On a wrapper that was left intact, the two are what the record gives. *)
Lemma constructed_endpoint_Intact (service : Service) (func_spec : FunctionSpec) :
  constructed_Service_name (Intact service) = Returns (Service_name service) ∧
  constructed_endpoint (Intact service) func_spec =
    Returns (endpoint (Function_init func_spec service)).
Proof. split; reflexivity. Qed.

(** X21.  For a service wrapped from its class and left intact, whose
    function names are distinct as those of a Thrift service are, and for
    every handler and method name (the handler's own name when none is
    given):  if the name is that of a declared function that is not oneway,
    [register] enters the built handler in the dispatcher's table under
    ['ServiceName::functionName'], with one serializer for the function's
    request class and one for its response class, and changes no other
    entry;  if there is no such function, [register] raises and the table
    is as it was. *)
Theorem register_installs_endpoint `{Collaborators}
    (cls : ServiceCls) (module : TChannelThriftModule) (service : Service) :
  Service_init cls module = Returns (Intact service) →
  NoDup (func_name <$> functions (service_spec cls)) →
  ∀ (dispatcher : RequestDispatcher) (handler : Handler Mixed)
    (method : option string),
  let name := method_or_name method handler in
  (∀ func_spec,
     func_spec ∈ functions (service_spec cls) →
     func_name func_spec = name →
     func_oneway func_spec = false →
     let function := Function_init func_spec service in
     let installed := build_handler function handler in
     endpoint function =
       (service_name (service_spec cls) ++ "::" ++
        surface_name (surface func_spec))%string ∧
     register dispatcher service (Some handler) method =
       (Returns (Installed installed),
        {| handlers :=
             <[endpoint function :=
                 {| registered_handler := installed;
                    request_serializer :=
                      Build_ThriftRWSerializer module (request (surface func_spec));
                    response_serializer :=
                      Build_ThriftRWSerializer module (response (surface func_spec))
                 |}]> (handlers dispatcher) |})) ∧
  ((∀ func_spec,
      func_spec ∈ functions (service_spec cls) →
      func_name func_spec = name →
      func_oneway func_spec = true) →
   ∃ raised,
     register dispatcher service (Some handler) method =
       (Raises raised, dispatcher)).
Proof.
  intros Hinit Hnodup dispatcher handler method name.
  destruct (Service_init_attrs _ _ _ Hinit Hnodup)
    as (Hmodule & Hcls & Hattrs & Hnames).
  split.
  - intros func_spec Hin Hname Honeway function installed.
    split.
    { unfold endpoint, Service_name, _spec. simpl. by rewrite Hcls. }
    assert (Service_getattr service name = Some (AttrFunction function)) as Hget.
    { apply Service_getattr_function. split.
      - rewrite <- Hname. by apply Hnames.
      - exists func_spec. split; [by apply Hattrs|done]. }
    unfold register, decorator. fold name. rewrite Hget.
    unfold oneway. simpl. rewrite Honeway, Hmodule. reflexivity.
  - intros Honeway.
    destruct (Service_getattr service name) as [[function|truth]|] eqn:Hget.
    + pose proof Hget as (_ & func_spec & Hlook & ->)%Service_getattr_function.
      apply Hattrs in Hlook as [Hin Hname].
      unfold register, decorator. fold name. rewrite Hget.
      unfold oneway. simpl. rewrite (Honeway _ Hin Hname). by eexists.
    + destruct (decorator_not_function dispatcher service method handler)
        as [raised Hraised].
      { fold name. rewrite Hget. discriminate. }
      exists raised. unfold register. by rewrite Hraised.
    + destruct (decorator_not_function dispatcher service method handler)
        as [raised Hraised].
      { fold name. rewrite Hget. discriminate. }
      exists raised. unfold register. by rewrite Hraised.
Qed.

Lemma register_installs_endpoint_witness :
  Service_init (H := KeyValue.collaborators) KeyValue.cls KeyValue.module =
    Returns (Intact KeyValue.service) ∧
  NoDup (func_name <$> functions (service_spec KeyValue.cls)) ∧
  ∃ installed dispatcher,
    register (H := KeyValue.collaborators) {| handlers := ∅ |} KeyValue.service
        (Some KeyValue.getValue) None =
      (Returns (Installed installed), dispatcher) ∧
    (registered_handler <$> handlers dispatcher !! "KeyValue::getValue") =
      Some installed ∧
    ∃ raised,
      register (H := KeyValue.collaborators) {| handlers := ∅ |} KeyValue.service
          (Some KeyValue.getValue) (Some "getValues") =
        (Raises raised, {| handlers := ∅ |}).
Proof.
  assert (NoDup (func_name <$> functions (service_spec KeyValue.cls))) as Hnodup.
  { apply (bool_decide_unpack _). by vm_compute. }
  split; [reflexivity|]. split; [exact Hnodup|].
  destruct (register_installs_endpoint (H := KeyValue.collaborators)
              KeyValue.cls KeyValue.module KeyValue.service eq_refl Hnodup
              {| handlers := ∅ |} KeyValue.getValue None)
    as [Hdeclared _].
  destruct (register_installs_endpoint (H := KeyValue.collaborators)
              KeyValue.cls KeyValue.module KeyValue.service eq_refl Hnodup
              {| handlers := ∅ |} KeyValue.getValue (Some "getValues"))
    as [_ Hmissing].
  destruct (Hdeclared KeyValue.getValue_spec) as [Hendpoint Hregister].
  - by left.
  - reflexivity.
  - reflexivity.
  - eexists _, _. split; [exact Hregister|]. split.
    + simpl. rewrite Hendpoint. simpl. by rewrite lookup_insert_eq.
    + apply Hmissing. intros func_spec Hin Hname. exfalso.
      apply list_elem_of_In in Hin. simpl in Hin.
      destruct Hin as [<-|[<-|[<-|[]]]]; discriminate Hname.
Defined.

(** ** Loading a Thrift file *)

Lemma substring_all (s : string) : String.substring 0 (String.length s) s = s.
Proof. induction s as [|c s IH]; simpl; [done|by rewrite IH]. Qed.

Lemma substring_append (p s : string) (m : nat) :
  String.substring (String.length p) m (p ++ s)%string = String.substring 0 m s.
Proof. induction p as [|c p IH]; simpl; [done|apply IH]. Qed.

Lemma length_append (p s : string) :
  String.length (p ++ s)%string = (String.length p + String.length s)%nat.
Proof. induction p as [|c p IH]; simpl; [done|by rewrite IH]. Qed.

Lemma substring_split (s : string) (k : nat) :
  (k ≤ String.length s)%nat →
  (String.substring 0 k s ++ String.substring k (String.length s - k) s)%string = s.
Proof.
  revert k. induction s as [|c s IH]; intros [|k] Hk; simpl in *.
  - done.
  - lia.
  - by rewrite substring_all.
  - change (String c (String.substring 0 k s ++
                      String.substring k (String.length s - k) s)%string =
            String c s).
    rewrite IH; [done|lia].
Qed.

(** [endswith] holds exactly of the strings that are something followed by
    the suffix. *)
Lemma endswith_spec (s suffix : string) :
  endswith s suffix = true ↔ ∃ stem, s = (stem ++ suffix)%string.
Proof.
  unfold endswith. rewrite andb_true_iff, Nat.leb_le, String.eqb_eq. split.
  - intros [Hlen Hsub].
    exists (String.substring 0 (String.length s - String.length suffix) s).
    pose proof (substring_split s (String.length s - String.length suffix))
      as Hsplit.
    replace (String.length s - (String.length s - String.length suffix))%nat
      with (String.length suffix) in Hsplit by lia.
    rewrite Hsub in Hsplit. symmetry. apply Hsplit. lia.
  - intros [stem ->]. rewrite length_append. split; [lia|].
    replace (String.length stem + String.length suffix - String.length suffix)%nat
      with (String.length stem) by lia.
    by rewrite substring_append, substring_all.
Qed.

Lemma TChannelThriftModule_init_Returns `{Collaborators}
    (service : option string) (module : ThriftModule)
    (hostport : option string) (loaded : constructed TChannelThriftModule) :
  TChannelThriftModule_init service module hostport = Returns loaded →
  stored loaded =
    {| service := service; module := module; hostport := hostport |}.
Proof.
  unfold TChannelThriftModule_init.
  destruct (wrap_services _ _ _) as [[wrapped replaced]|]; simpl;
    [|discriminate].
  intros [= <-]. apply stored_leaves.
Qed.

(** C9.  When the first argument of [load] does not end with ['.thrift'], it
    is used as the service name and the second argument as the path of the
    file that is compiled; when it does, the two are used as given.  In both
    cases the module that comes back was initialised with the service name
    so chosen and what compiling the path so chosen gave. *)
Theorem load_swaps_arguments `{Collaborators}
    (path : string) (service hostport module_name : option string) :
  ((¬ ∃ stem, path = (stem ++ ".thrift")%string) →
   load path service hostport module_name =
     (module ← thriftrw_load service module_name;
      TChannelThriftModule_init (Some path) module hostport) ∧
   ∀ loaded, load path service hostport module_name = Returns loaded →
     ∃ compiled,
       thriftrw_load service module_name = Returns compiled ∧
       stored loaded = {| service := Some path; module := compiled;
                          hostport := hostport |}) ∧
  ((∃ stem, path = (stem ++ ".thrift")%string) →
   load path service hostport module_name =
     (module ← thriftrw_load (Some path) module_name;
      TChannelThriftModule_init service module hostport) ∧
   ∀ loaded, load path service hostport module_name = Returns loaded →
     ∃ compiled,
       thriftrw_load (Some path) module_name = Returns compiled ∧
       stored loaded = {| service := service; module := compiled;
                          hostport := hostport |}).
Proof.
  split.
  - intros Hends. apply (not_iff_compat (endswith_spec path ".thrift")) in Hends.
    apply not_true_is_false in Hends.
    assert (load path service hostport module_name =
            (module ← thriftrw_load service module_name;
             TChannelThriftModule_init (Some path) module hostport)) as Hload.
    { unfold load. by rewrite Hends. }
    split; [exact Hload|]. intros loaded. rewrite Hload.
    destruct (thriftrw_load service module_name) as [compiled|]; simpl;
      [|discriminate].
    intros Hinit%TChannelThriftModule_init_Returns. by exists compiled.
  - intros Hends%endswith_spec.
    assert (load path service hostport module_name =
            (module ← thriftrw_load (Some path) module_name;
             TChannelThriftModule_init service module hostport)) as Hload.
    { unfold load. by rewrite Hends. }
    split; [exact Hload|]. intros loaded. rewrite Hload.
    destruct (thriftrw_load (Some path) module_name) as [compiled|]; simpl;
      [|discriminate].
    intros Hinit%TChannelThriftModule_init_Returns. by exists compiled.
Qed.

Lemma load_swaps_arguments_witness :
  (¬ ∃ stem, "keyvalue" = (stem ++ ".thrift")%string) ∧
  (∃ stem, "keyvalue.thrift" = (stem ++ ".thrift")%string) ∧
  load (H := KeyValue.collaborators) "keyvalue" (Some "keyvalue.thrift") None None =
    Returns (Intact KeyValue.module) ∧
  load (H := KeyValue.collaborators) "keyvalue.thrift" (Some "keyvalue") None None =
    Returns (Intact KeyValue.module).
Proof.
  assert (¬ ∃ stem, "keyvalue" = (stem ++ ".thrift")%string) as Hservice.
  { intros Hends%endswith_spec. discriminate Hends. }
  assert (∃ stem, "keyvalue.thrift" = (stem ++ ".thrift")%string) as Hpath.
  { by exists "keyvalue". }
  split; [exact Hservice|]. split; [exact Hpath|]. split.
  - destruct (load_swaps_arguments (H := KeyValue.collaborators)
                "keyvalue" (Some "keyvalue.thrift") None None) as [Hswap _].
    destruct (Hswap Hservice) as [-> _]. reflexivity.
  - destruct (load_swaps_arguments (H := KeyValue.collaborators)
                "keyvalue.thrift" (Some "keyvalue") None None) as [_ Hkeep].
    destruct (Hkeep Hpath) as [-> _]. reflexivity.
Defined.

(** ** The JSON scheme *)


Lemma find_None {A : Type} (f : A → bool) (l : list A) :
  find f l = None ↔ ∀ x, x ∈ l → f x = false.
Proof.
  induction l as [|a l IH]; simpl.
  - split; [|done]. intros _ x Hx. by apply elem_of_nil in Hx.
  - destruct (f a) eqn:Hfa.
    + split; [discriminate|]. intros Hall. rewrite Hall in Hfa; [done|by left].
    + rewrite IH. split.
      * intros Hall x [->|Hx]%elem_of_cons; auto.
      * intros Hall x Hx. apply Hall. by right.
Qed.

(** C10, as amended.  When none of the extra keyword arguments is called
    [scheme], [endpoint] or [handler], [register] of the JSON scheme invokes
    the channel's [register] once, with [scheme] the JSON scheme and the
    keyword arguments it was given, and returns or raises what the channel
    does: with the argument as handler and [None] as endpoint when the
    argument is callable, and with the argument as endpoint and [None] as
    handler when it is not. *)
Theorem json_register_forwards (tchannel : TChannel) (endpoint : EndpointArg)
    (kwargs : list (string * PyVal)) :
  (∀ keyword, keyword ∈ kwargs.*1 →
     keyword ≠ "scheme" ∧ keyword ≠ "endpoint" ∧ keyword ≠ "handler") →
  let forwarded :=
    match endpoint with
    | ArgFunction f =>
        {| register_scheme := "json"; register_endpoint := PyNone;
           register_handler := Some f; register_kwargs := kwargs |}
    | ArgValue v =>
        {| register_scheme := "json"; register_endpoint := v;
           register_handler := None; register_kwargs := kwargs |}
    end in
  (callable endpoint = true ↔ is_Some (register_handler forwarded)) ∧
  JsonArgScheme_register tchannel endpoint kwargs =
    (registers tchannel forwarded,
     {| responds := responds tchannel; registers := registers tchannel;
        calls := calls tchannel;
        registrations := registrations tchannel ++ [forwarded] |}).
Proof.
  intros Hkeywords.
  assert (find is_register_keyword kwargs = None) as Hfind.
  { apply find_None. intros [keyword value] Hin.
    unfold is_register_keyword, register_keywords. simpl.
    destruct (Hkeywords keyword) as (Hscheme & Hendpoint & Hhandler).
    { apply list_elem_of_fmap. by exists (keyword, value). }
    apply bool_decide_eq_false.
    intros [->|[->|[->|Hnil%elem_of_nil]%elem_of_cons]%elem_of_cons]%elem_of_cons;
      done. }
  unfold JsonArgScheme_register.
  destruct endpoint as [f|v]; simpl; rewrite Hfind.
  - split; [|reflexivity]. split; [by eexists|done].
  - split; [|reflexivity]. split; [done|]. by intros [? [=]].
Qed.

Lemma json_register_forwards_witness :
  JsonArgScheme_register Echo.tchannel (ArgValue (PyStr "echo"))
    [("retries", PyInt 3)] =
  (Returns PyNone,
   {| responds := Echo.echo; registers := registers Echo.tchannel;
      calls := [];
      registrations :=
        [{| register_scheme := "json"; register_endpoint := PyStr "echo";
            register_handler := None;
            register_kwargs := [("retries", PyInt 3)] |}] |}).
Proof.
  apply (json_register_forwards Echo.tchannel (ArgValue (PyStr "echo"))
           [("retries", PyInt 3)]).
  intros keyword Hin. apply list_elem_of_In in Hin. simpl in Hin.
  destruct Hin as [<-|[]]. by split_and!.
Defined.

(** C10 as it was stated fails: given [scheme='raw'] among the extra keyword
    arguments, [register] of the JSON scheme raises [TypeError] for the
    keyword given twice, and the channel's [register] is not invoked. *)
Lemma json_register_forwards_counterexample :
  JsonArgScheme_register Echo.tchannel (ArgFunction KeyValue.getValue)
    [("scheme", PyStr "raw")] =
  (Raises (Exc (MkExc TypeError
     "register() got multiple values for keyword argument 'scheme'")),
   Echo.tchannel) ∧
  registrations
    (JsonArgScheme_register Echo.tchannel (ArgFunction KeyValue.getValue)
       [("scheme", PyStr "raw")]).2 = [].
Proof. split; reflexivity. Qed.

(** ** The frame codec *)

Lemma Z_of_byte_of_Z (z : Z) : Z_of_byte (byte_of_Z z) = z mod 256.
Proof.
  unfold Z_of_byte, byte_of_Z.
  assert (0 ≤ z mod 256 < 256) as Hrange by (apply Z.mod_pos_bound; lia).
  destruct (Byte.of_N (Z.to_N (z mod 256))) as [b|] eqn:Hb; simpl.
  - apply Byte.to_of_N in Hb. rewrite Hb. lia.
  - apply Byte.of_N_None_iff in Hb. lia.
Qed.

Lemma Z_of_byte_range (b : byte) : 0 ≤ Z_of_byte b < 256.
Proof. unfold Z_of_byte. pose proof (Byte.to_N_bounded b). lia. Qed.

Lemma byte_of_Z_of_byte (b : byte) : byte_of_Z (Z_of_byte b) = b.
Proof.
  unfold byte_of_Z. rewrite Z.mod_small by apply Z_of_byte_range.
  unfold Z_of_byte. by rewrite N2Z.id, Byte.of_to_N.
Qed.

Lemma read_write_u16 (z : Z) :
  0 ≤ z < 2 ^ 16 →
  match write_u16 z with
  | [b1; b0] => read_u16 b1 b0 = z
  | _ => False
  end.
Proof.
  intros Hz. simpl. unfold read_u16. rewrite !Z_of_byte_of_Z.
  change (2 ^ 8) with 256 in *. change (2 ^ 16) with 65536 in *.
  rewrite (Z.mod_small (z / 256)) by (split; [apply Z.div_pos|apply Z.div_lt_upper_bound]; lia).
  pose proof (Z.div_mod z 256). lia.
Qed.

Lemma read_write_u32 (z : Z) :
  0 ≤ z < 2 ^ 32 →
  match write_u32 z with
  | [b3; b2; b1; b0] => read_u32 b3 b2 b1 b0 = z
  | _ => False
  end.
Proof.
  intros Hz. simpl. unfold read_u32. rewrite !Z_of_byte_of_Z.
  change (2 ^ 8) with 256 in *. change (2 ^ 16) with 65536 in *.
  change (2 ^ 24) with 16777216 in *. change (2 ^ 32) with 4294967296 in *.
  rewrite (Z.mod_small (z / 16777216))
    by (split; [apply Z.div_pos|apply Z.div_lt_upper_bound]; lia).
  pose proof (Z.div_mod z 256 ltac:(lia)).
  pose proof (Z.div_mod (z / 256) 256 ltac:(lia)).
  pose proof (Z.div_mod (z / 65536) 256 ltac:(lia)).
  rewrite (Z.div_div z 256 256) in * by lia.
  replace (z / 16777216) with (z / 65536 / 256) in *
    by (rewrite Z.div_div by lia; done).
  change (256 * 256) with 65536 in *.
  lia.
Qed.

(** Every type has a code that fits a byte, and the code names the type. *)
Lemma type_of_code_type_code (t : FrameType) :
  0 ≤ type_code t < 256 ∧ type_of_code (type_code t) = Some t.
Proof. destruct t; (split; [simpl; lia|reflexivity]). Qed.

Lemma type_code_inj (t1 t2 : FrameType) : type_code t1 = type_code t2 → t1 = t2.
Proof.
  intros Heq. apply (inj Some).
  rewrite <- (proj2 (type_of_code_type_code t1)), Heq.
  apply type_of_code_type_code.
Qed.

Lemma read_bytes_app (l rest : bytes) (n : nat) :
  n = length l → read_bytes n (l ++ rest) = Some (l, rest).
Proof.
  intros ->. unfold read_bytes.
  rewrite length_app, (leb_correct _ _ (Nat.le_add_r _ _)).
  by rewrite take_app_length, drop_app_length.
Qed.

Lemma length_encode (F : Frame) : Z.of_nat (length (encode F)) = size F.
Proof. unfold encode, size, HEADER_SIZE. simpl. lia. Qed.

(** C8.  For every frame of the data model, of whichever type, with a u32
    message id and a payload within the per-frame budget: the size is
    between 16 and 65535, it is the number of bytes written and the u16
    that leads them, and reading the written bytes off a stream gives the
    frame back and leaves the rest of the stream. *)
Theorem frame_round_trip (F : Frame) :
  frame_ok F →
  16 ≤ size F ≤ 65535 ∧
  Z.of_nat (length (encode F)) = size F ∧
  take 2 (encode F) = write_u16 (size F) ∧
  ∀ rest : bytes, decode (encode F ++ rest) = Read F rest.
Proof.
  intros [Hid Hpayload]. unfold MAX_PAYLOAD in Hpayload.
  assert (16 ≤ size F ≤ 65535) as Hsize by (unfold size, HEADER_SIZE; lia).
  split_and!; [lia|lia|apply length_encode|reflexivity|].
  intros rest.
  pose proof (read_write_u16 (size F) ltac:(lia)) as Hu16.
  pose proof (read_write_u32 (frame_id F) Hid) as Hu32.
  destruct (type_of_code_type_code (frame_type F)) as [Hcode Htype].
  set (header := write_u8 (type_code (frame_type F)) ++ write_u8 0 ++
                 write_u32 (frame_id F) ++ replicate 8 x00).
  assert (encode F ++ rest =
          write_u16 (size F) ++ (header ++ payload F) ++ rest) as ->
    by reflexivity.
  unfold decode. simpl in Hu16. simpl.
  rewrite Hu16. destruct (Z.ltb_spec (size F) HEADER_SIZE) as [Hlt|_];
    [unfold HEADER_SIZE in Hlt; lia|].
  rewrite (read_bytes_app (header ++ payload F) rest).
  - simpl. rewrite Z_of_byte_of_Z, Z.mod_small, Htype by done.
    simpl in Hu32. rewrite Hu32. by destruct F.
  - rewrite length_app. unfold size, HEADER_SIZE. simpl. lia.
Qed.

Lemma frame_round_trip_witness :
  frame_ok {| frame_type := PingReq; frame_id := 7; payload := [x70; x69] |} ∧
  size {| frame_type := PingReq; frame_id := 7; payload := [x70; x69] |} = 18 ∧
  decode (encode {| frame_type := PingReq; frame_id := 7; payload := [x70; x69] |}
          ++ [xff]) =
    Read {| frame_type := PingReq; frame_id := 7; payload := [x70; x69] |} [xff].
Proof.
  assert (frame_ok {| frame_type := PingReq; frame_id := 7;
                      payload := [x70; x69] |}) as Hok.
  { unfold frame_ok, MAX_PAYLOAD. simpl. lia. }
  split; [exact Hok|]. split; [reflexivity|].
  apply (frame_round_trip _ Hok).
Defined.

(** What [encode] writes for a ping request with id 7 and two bytes of
    payload. *)
Example encode_ping :
  encode {| frame_type := PingReq; frame_id := 7; payload := [x70; x69] |} =
  [x00; x12; xd0; x00; x00; x00; x00; x07;
   x00; x00; x00; x00; x00; x00; x00; x00; x70; x69].
Proof. vm_compute. reflexivity. Qed.

(** A stream that announces fewer than 16 bytes, or holds fewer bytes than it
    announces, is refused. *)
Example decode_short : decode [x00; x0f; xd0; x00] = BadFrame.
Proof. vm_compute. reflexivity. Qed.

Example decode_truncated :
  decode [x00; x12; xd0; x00; x00; x00; x00; x07;
          x00; x00; x00; x00; x00; x00; x00; x00; x70] = BadFrame.
Proof. vm_compute. reflexivity. Qed.

(** ** The example services, run *)

Section examples.
#[local] Existing Instance KeyValue.collaborators.
#[local] Existing Instance Echo.raw.

(** [getValue('hello')] goes through: status [OK], the value in [success]. *)
Example getValue_hello :
  call (build_handler KeyValue.getValue_function KeyValue.getValue) KeyValue.hello =
  Returns (Built
    {| status := 0; headers := PyNone;
       body := {| result_cls := response (surface KeyValue.getValue_spec);
                  success := PyStr "world";
                  exception_attrs := ∅ |} |}).
Proof. reflexivity. Qed.

(** On Python 2 a [StopIteration] from the user handler ends the coroutine,
    which resolves with [None]. *)
Example getValue_exhausted :
  call (build_handler KeyValue.getValue_function KeyValue.exhausted)
    KeyValue.hello =
  Returns (Escaped (MixedVal PyNone)).
Proof. reflexivity. Qed.

(** A number where the function returns a string is refused by the response
    class, and the error comes out of the built handler. *)
Example getValue_counting :
  call (build_handler KeyValue.getValue_function KeyValue.counting)
    KeyValue.hello =
  Raises (Exc (MkExc TypeError "success must be a string")).
Proof. reflexivity. Qed.

(** A [KeyboardInterrupt] is not an [Exception] and goes straight through
    the built handler. *)
Example getValue_interrupted :
  call (build_handler KeyValue.getValue_function KeyValue.interrupted)
    KeyValue.hello =
  Raises (BaseExc "KeyboardInterrupt" EmptyString).
Proof. reflexivity. Qed.

(** An exception of a class the function does not declare goes through as
    well. *)
Example setValue_not_found :
  call (build_handler KeyValue.setValue_function KeyValue.getValue)
    KeyValue.goodbye =
  Raises (Exc (MkExc KeyValue.NotFoundError "goodbye")).
Proof. reflexivity. Qed.

(** The built handler carries the name of the function, whatever the user's
    handler is called. *)
Example build_handler_name :
  __name__ (build_handler KeyValue.getValue_function KeyValue.setValue) =
  "getValue".
Proof. reflexivity. Qed.

Example getValue_call :
  Function_call KeyValue.getValue_function [PyStr "goodbye"] [] =
  Returns KeyValue.getValue_request.
Proof. reflexivity. Qed.

(** Without a service name or a hostport no request is built. *)
Example getValue_no_service :
  let bare := {| service := None; module := KeyValue.thrift_module;
                 hostport := Some EmptyString |} in
  Function_call
    (Function_init KeyValue.getValue_spec
       {| _module := bare; _cls := KeyValue.cls;
          function_attrs := function_attrs KeyValue.service |})
    [PyStr "goodbye"] [] =
  Raises (Exc (MkExc ValueError
    "No 'service' or 'hostport' provided to Function(KeyValue::getValue)")).
Proof. reflexivity. Qed.

(** A method the service does not define, and a name that is an attribute
    of the wrapper but not a function. *)
Example register_missing :
  (register {| handlers := ∅ |} KeyValue.service
     (Some KeyValue.getValue) (Some "getValues")).1 =
  Raises (Exc (MkExc AssertionError
                 (does_not_define KeyValue.service "getValues"))).
Proof. reflexivity. Qed.

Example register_name :
  (register {| handlers := ∅ |} KeyValue.service
     (Some KeyValue.getValue) (Some "name")).1 =
  Raises (Exc (MkExc AttributeError "object has no attribute 'oneway'")).
Proof. reflexivity. Qed.

(** A service with a function called [name] cannot be wrapped. *)
Example Service_init_name :
  Service_init
    {| service_spec :=
         {| service_name := "Named";
            functions := [{| func_name := "name"; func_oneway := false;
                             surface := surface KeyValue.setValue_spec |}] |} |}
    KeyValue.module =
  Raises (Exc (MkExc AttributeError "can't set attribute")).
Proof. reflexivity. Qed.

(** A service with a function called [_spec] is wrapped, with the function
    in the place of the spec of the service. *)
Example Service_init_shadowing :
  Service_init KeyValue.shadowing_cls KeyValue.module =
  Returns (Overwritten
    {| _module := KeyValue.module; _cls := KeyValue.shadowing_cls;
       function_attrs :=
         <["_spec" := KeyValue.shadowing_spec]>
           (<["getValue" := KeyValue.getValue_spec]> ∅) |}
    ["_spec"]).
Proof. reflexivity. Qed.

(** A file with a service called [hostport]: the wrapper of the service takes
    the place of the hostport the module was given. *)
Example TChannelThriftModule_init_hostport :
  let compiled :=
    {| module_name_of := "clash";
       services := [{| service_spec := {| service_name := "hostport";
                                          functions := [] |} |}] |} in
  TChannelThriftModule_init (Some "keyvalue") compiled (Some "localhost:4040") =
  Returns (Overwritten
    {| service := Some "keyvalue"; module := compiled;
       hostport := Some "localhost:4040" |}
    ["hostport"]).
Proof. reflexivity. Qed.

Example endswith_thrift :
  endswith "idl/keyvalue.thrift" ".thrift" = true ∧
  endswith "keyvalue" ".thrift" = false ∧
  endswith "thrift" ".thrift" = false ∧
  endswith ".thrift" ".thrift" = true.
Proof. by split_and!. Qed.

(** A JSON-scheme call over the echo channel: what the channel saw, and what
    came back. *)
Example echo_call :
  JsonArgScheme_call Echo.tchannel "echo" "ping" Echo.pong Echo.ping
    (PyInt 50) PyNone (PyInt 4) PyNone PyNone PyNone =
  (Returns {| status := 0; headers := Echo.ping; body := Echo.pong |},
   {| responds := Echo.echo; registers := λ _, Returns PyNone;
      calls := [{| call_scheme := "json"; call_service := "echo";
                   arg1 := "ping"; arg2 := Echo.ping; arg3 := Echo.pong;
                   timeout := PyInt 50; retry_on := PyNone;
                   retry_limit := PyInt 4; call_hostport := PyNone;
                   shard_key := PyNone; trace := PyNone |}];
      registrations := [] |}).
Proof. reflexivity. Qed.

Example json_register_function :
  registrations
    (JsonArgScheme_register Echo.tchannel (ArgFunction KeyValue.getValue) []).2 =
  [{| register_scheme := "json"; register_endpoint := PyNone;
      register_handler := Some KeyValue.getValue; register_kwargs := [] |}].
Proof. reflexivity. Qed.

Example json_register_name :
  registrations
    (JsonArgScheme_register Echo.tchannel (ArgValue (PyStr "echo")) []).2 =
  [{| register_scheme := "json"; register_endpoint := PyStr "echo";
      register_handler := None; register_kwargs := [] |}].
Proof. reflexivity. Qed.

End examples.

(** * Further properties of [tchannel.thrift.rw] *)

(** ** Building a request *)

(** X1.  A function that is not oneway, called on a module that has neither
    a service name nor a hostport ([None] or the empty string, both), raises
    [ValueError] naming the function, whatever the arguments are and before
    the request class sees them. *)
Theorem Function_call_needs_service `{Collaborators} (self : Function)
    (args : list PyVal) (kwargs : list (string * PyVal)) :
  oneway self = false →
  truthy (hostport (_module (function_service self))) = false →
  truthy (service (_module (function_service self))) = false →
  Function_call self args kwargs =
    Raises (Exc (MkExc ValueError
      ("No 'service' or 'hostport' provided to " ++ Function_str self)%string)).
Proof.
  intros Honeway Hhostport Hservice. unfold Function_call.
  by rewrite Honeway, Hhostport, Hservice.
Qed.

Lemma Function_call_needs_service_witness :
  let bare := {| service := Some EmptyString; module := KeyValue.thrift_module;
                 hostport := None |} in
  let self := Function_init KeyValue.setValue_spec
                {| _module := bare; _cls := KeyValue.cls;
                   function_attrs := function_attrs KeyValue.service |} in
  Function_call (H := KeyValue.collaborators) self [] [] =
    Raises (Exc (MkExc ValueError
      "No 'service' or 'hostport' provided to Function(KeyValue::setValue)")).
Proof.
  intros bare self.
  exact (Function_call_needs_service (H := KeyValue.collaborators) self [] []
           eq_refl eq_refl eq_refl).
Defined.

(** X2.  [Function.__call__] returns a request exactly when the function is
    not oneway, the module has a service name or a hostport, and the request
    class accepts the arguments.  The request then carries the module, its
    service name and hostport, the endpoint of the function, the arguments
    as the request class built them, the response class as result type, and
    a serializer for that response class. *)
Theorem Function_call_returns_iff `{Collaborators} (self : Function)
    (args : list PyVal) (kwargs : list (string * PyVal))
    (built : ThriftRWRequest) :
  Function_call self args kwargs = Returns built ↔
  oneway self = false ∧
  (truthy (hostport (_module (function_service self))) = true ∨
   truthy (service (_module (function_service self))) = true) ∧
  ∃ arguments,
    request_new (request_cls self) args kwargs = Returns arguments ∧
    built =
      {| request_module := _module (function_service self);
         request_service := service (_module (function_service self));
         request_endpoint := endpoint self;
         result_type := response_cls self;
         call_args := arguments;
         request_hostport := hostport (_module (function_service self));
         serializer :=
           Build_ThriftRWSerializer (_module (function_service self))
             (response_cls self) |}.
Proof.
  unfold Function_call.
  destruct (oneway self).
  { split; [discriminate|]. by intros [? _]. }
  destruct (truthy (hostport _)) eqn:Hhostport; simpl.
  - destruct (request_new _ _ _) as [arguments|raised]; simpl.
    + split.
      * intros [= <-]. split_and!; [done|by left|by eexists].
      * intros (_ & _ & ? & [= <-] & ->). done.
    + split; [discriminate|]. by intros (_ & _ & ? & [=] & _).
  - destruct (truthy (service _)) eqn:Hservice; simpl.
    + destruct (request_new _ _ _) as [arguments|raised]; simpl.
      * split.
        -- intros [= <-]. split_and!; [done|by right|by eexists].
        -- intros (_ & _ & ? & [= <-] & ->). done.
      * split; [discriminate|]. by intros (_ & _ & ? & [=] & _).
    + split; [discriminate|]. by intros (_ & [?|?] & _).
Qed.

(** An argument list the request class refuses reaches the caller as the
    error raised by the class. *)
Example getValue_too_many :
  Function_call (H := KeyValue.collaborators) KeyValue.getValue_function
    [PyStr "a"; PyStr "b"] [] =
  Raises (Exc (MkExc (Subclass "TypeError" Exception) "too many arguments")).
Proof. reflexivity. Qed.

Lemma Function_call_returns_iff_witness :
  Function_call (H := KeyValue.collaborators) KeyValue.getValue_function
    [PyStr "goodbye"] [] = Returns KeyValue.getValue_request.
Proof.
  apply (Function_call_returns_iff (H := KeyValue.collaborators)).
  split_and!; [reflexivity|by right|].
  eexists. split; reflexivity.
Defined.

(** ** Reading a response, all cases *)

(** X3.  [read_body] returns a value exactly when no declared exception
    field is set and either the function is void and the value is [None],
    or the function returns a value and the value is the success field,
    which is not [None].  A caller of a function that returns a value never
    gets [None]. *)
Theorem read_body_returns_iff (self : ThriftRWRequest) (body : ResultUnion)
    (value : PyVal) :
  let response_spec := type_spec (result_type self) in
  read_body self body = Returns value ↔
  (∀ s, s ∈ exception_specs response_spec →
        ResultUnion_getattr body (field_name s) = None) ∧
  ((return_spec response_spec = None ∧ value = PyNone) ∨
   (is_Some (return_spec response_spec) ∧ value = success body ∧
    value ≠ PyNone)).
Proof.
  intros response_spec. unfold read_body. fold response_spec.
  destruct (first_exception _ body) as [exc|] eqn:Hfirst.
  - split; [discriminate|]. intros [Hnone _].
    pose proof (proj2 (first_exception_None _ _) Hnone). congruence.
  - pose proof (proj1 (first_exception_None _ _) Hfirst) as Hnone.
    destruct (return_spec response_spec) as [t|].
    + destruct (success body) as [|s|z] eqn:Hsuccess; simpl.
      * split; [discriminate|].
        intros [_ [[[=] _]|(_ & -> & Hvalue)]]. done.
      * split.
        -- intros [= <-]. split; [done|]. right. by split_and!.
        -- intros [_ [[[=] _]|(_ & -> & _)]]. done.
      * split.
        -- intros [= <-]. split; [done|]. right. by split_and!.
        -- intros [_ [[[=] _]|(_ & -> & _)]]. done.
    + split.
      * intros [= <-]. split; [done|]. by left.
      * intros [_ [[_ ->]|([? [=]] & _)]]. done.
Qed.

Lemma read_body_returns_iff_witness :
  read_body KeyValue.getValue_request
    {| result_cls := response (surface KeyValue.getValue_spec);
       success := PyStr "world"; exception_attrs := ∅ |} =
  Returns (PyStr "world").
Proof.
  apply read_body_returns_iff. split.
  - intros s Hs. reflexivity.
  - right. split_and!; [by eexists|reflexivity|discriminate].
Defined.

(** ** From the handler on the server to the caller *)

(** With one declared exception set and nothing else, the loop of
    [read_body] finds it. *)
Lemma first_exception_singleton (exc_specs : list FieldSpec)
    (exc_spec : FieldSpec) (cls : ResponseCls) (value : PyVal)
    (e : ExcInstance) :
  exc_spec ∈ exc_specs →
  first_exception exc_specs
    {| result_cls := cls; success := value;
       exception_attrs := {[ field_name exc_spec := e ]} |} = Some e.
Proof.
  induction exc_specs as [|s rest IH]; intros Hin.
  - by apply elem_of_nil in Hin.
  - simpl. unfold ResultUnion_getattr. simpl.
    destruct (decide (field_name exc_spec = field_name s)) as [Heq|Hne].
    + by rewrite <- Heq, lookup_singleton_eq.
    + rewrite lookup_singleton_ne by done.
      apply elem_of_cons in Hin as [->|Hin]; [done|by apply IH].
Qed.

(** A request that [Function.__call__] built reads responses of the
    function it was built for. *)
Lemma Function_call_result_type `{Collaborators} (function : Function)
    (args : list PyVal) (kwargs : list (string * PyVal))
    (self : ThriftRWRequest) :
  Function_call function args kwargs = Returns self →
  result_type self = response_cls function ∧
  request_endpoint self = endpoint function.
Proof.
  unfold Function_call. destruct (oneway function); [discriminate|].
  destruct (negb _); [discriminate|].
  destruct (request_new _ _ _) as [arguments|]; simpl; [|discriminate].
  by intros [= <-].
Qed.

(** X4.  A value travels from the handler to the caller: for a function
    that returns a value, when the user handler returns a response with a
    body that is not [None] and that the response class accepts as the
    success value, the built handler returns a response with status [OK],
    and [read_body] of a request built for the same function returns that
    body from it. *)
Theorem handler_value_reaches_caller `{Collaborators}
    (function : Function) (handler : Handler Mixed) (request : Request)
    (returned : Mixed) (args : list PyVal) (kwargs : list (string * PyVal))
    (self : ThriftRWRequest) :
  Function_call function args kwargs = Returns self →
  is_Some (return_spec (type_spec (response_cls function))) →
  call handler request = Returns returned →
  body (response_from_mixed returned) ≠ PyNone →
  success_error (response_cls function) (body (response_from_mixed returned)) =
    None →
  ∃ response,
    call (build_handler function handler) request = Returns (Built response) ∧
    status response = OK ∧
    read_body self (body response) = Returns (body (response_from_mixed returned)).
Proof.
  intros [Htype _]%Function_call_result_type [t Ht] Hret Hbody Hvalid.
  simpl. unfold handle, handle_generator. rewrite Hret, Ht, Hvalid.
  destruct (body (response_from_mixed returned)) as [|s|z] eqn:Hb; [done|..];
    simpl; (eexists; split_and!; [reflexivity..|]);
    unfold read_body; rewrite Htype; simpl; rewrite Ht;
    rewrite (proj2 (first_exception_None _ _)); done.
Qed.

Lemma handler_value_reaches_caller_witness :
  ∃ response,
    call (build_handler (H := KeyValue.collaborators)
            KeyValue.getValue_function KeyValue.getValue) KeyValue.hello =
      Returns (Built response) ∧
    status response = OK ∧
    read_body KeyValue.getValue_request (body response) = Returns (PyStr "world").
Proof.
  apply (handler_value_reaches_caller (H := KeyValue.collaborators)
           KeyValue.getValue_function KeyValue.getValue KeyValue.hello
           (MixedVal (PyStr "world")) [PyStr "goodbye"] []
           KeyValue.getValue_request).
  - reflexivity.
  - by eexists.
  - reflexivity.
  - discriminate.
  - reflexivity.
Defined.

(** X5.  A declared exception travels from the handler to the caller: when
    the user handler raises an instance of one of the function's declared
    exception classes, the built handler returns a response with status
    [FAILED], and [read_body] of a request built for the same function
    raises that very exception from it. *)
Theorem handler_exception_reaches_caller `{Collaborators}
    (function : Function) (handler : Handler Mixed) (request : Request)
    (e : ExcInstance) (args : list PyVal) (kwargs : list (string * PyVal))
    (self : ThriftRWRequest) :
  Function_call function args kwargs = Returns self →
  call handler request = Raises (Exc e) →
  (∃ declared,
     declared ∈ exception_specs (type_spec (response_cls function)) ∧
     isinstance e (field_surface declared) = true) →
  ∃ response,
    call (build_handler function handler) request = Returns (Built response) ∧
    status response = FAILED ∧
    read_body self (body response) = Raises (Exc e).
Proof.
  intros [Htype _]%Function_call_result_type Hraise (declared & Hin & Hinst).
  simpl. unfold handle, handle_generator. rewrite Hraise.
  destruct (matching_exc_spec _ e) as [exc_spec|] eqn:Hmatch.
  - eexists. split_and!; [reflexivity..|].
    unfold read_body. rewrite Htype. simpl.
    apply matching_exc_spec_Some in Hmatch as (pre & post & Heq & _ & _).
    rewrite first_exception_singleton; [done|].
    rewrite Heq. apply elem_of_app. right. by left.
  - pose proof (proj1 (matching_exc_spec_None _ _) Hmatch _ Hin). congruence.
Qed.

Lemma handler_exception_reaches_caller_witness :
  ∃ response,
    call (build_handler (H := KeyValue.collaborators)
            KeyValue.getValue_function KeyValue.getValue) KeyValue.goodbye =
      Returns (Built response) ∧
    status response = FAILED ∧
    read_body KeyValue.getValue_request (body response) =
      Raises (Exc (MkExc KeyValue.NotFoundError "goodbye")).
Proof.
  apply (handler_exception_reaches_caller (H := KeyValue.collaborators)
           KeyValue.getValue_function KeyValue.getValue KeyValue.goodbye
           (MkExc KeyValue.NotFoundError "goodbye") [PyStr "goodbye"] []
           KeyValue.getValue_request).
  - reflexivity.
  - reflexivity.
  - eexists. split; [by left|reflexivity].
Defined.

(** X6.  For a void function, whatever the user handler returns is dropped:
    the built handler returns a response with status [OK] and an empty
    union, and [read_body] of a request built for the same function returns
    [None] from it. *)
Theorem void_handler_reaches_caller `{Collaborators}
    (function : Function) (handler : Handler Mixed) (request : Request)
    (returned : Mixed) (args : list PyVal) (kwargs : list (string * PyVal))
    (self : ThriftRWRequest) :
  Function_call function args kwargs = Returns self →
  return_spec (type_spec (response_cls function)) = None →
  call handler request = Returns returned →
  ∃ response,
    call (build_handler function handler) request = Returns (Built response) ∧
    status response = OK ∧
    success (body response) = PyNone ∧
    exception_attrs (body response) = ∅ ∧
    read_body self (body response) = Returns PyNone.
Proof.
  intros [Htype _]%Function_call_result_type Hvoid Hret.
  simpl. unfold handle, handle_generator. rewrite Hret, Hvoid.
  eexists. split_and!; [reflexivity..|].
  unfold read_body. rewrite Htype. simpl. rewrite Hvoid.
  rewrite (proj2 (first_exception_None _ _)); done.
Qed.

Lemma void_handler_reaches_caller_witness :
  ∃ response,
    call (build_handler (H := KeyValue.collaborators)
            KeyValue.setValue_function KeyValue.getValue) KeyValue.hello =
      Returns (Built response) ∧
    status response = OK ∧
    success (body response) = PyNone ∧
    exception_attrs (body response) = ∅ ∧
    read_body KeyValue.setValue_request (body response) = Returns PyNone.
Proof.
  apply (void_handler_reaches_caller (H := KeyValue.collaborators)
           KeyValue.setValue_function KeyValue.getValue KeyValue.hello
           (MixedVal (PyStr "world")) [PyStr "hello"; PyStr "there"] []
           KeyValue.setValue_request); reflexivity.
Defined.

(** ** What a built handler can give *)

(** X7.  What a built handler returns is one of two things.  Either it is a
    response it built, which carries a well-formed union of the function's
    response class: status [OK], no exception field set, and the success
    field set exactly for a function that returns a value; or status
    [FAILED], success [None], and the one exception field set holding the
    exception the user handler raised, under a declared class it is an
    instance of.  Or it is the value of a [tornado.gen.Return], or of a
    [StopIteration] where the interpreter lets one out of a generator: one
    that the user handler raised and that is an instance of no declared
    class, or one that the response class raised for the success value. *)
Theorem build_handler_response_union `{Collaborators}
    (function : Function) (handler : Handler Mixed) (request : Request)
    (resolved : Resolved) :
  call (build_handler function handler) request = Returns resolved →
  let response_spec := type_spec (response_cls function) in
  match resolved with
  | Built response =>
      result_cls (body response) = response_cls function ∧
      ((status response = OK ∧
        exception_attrs (body response) = ∅ ∧
        (return_spec response_spec = None → success (body response) = PyNone) ∧
        (is_Some (return_spec response_spec) →
         success (body response) ≠ PyNone)) ∨
       (status response = FAILED ∧
        success (body response) = PyNone ∧
        ∃ exc_spec e,
          exc_spec ∈ exception_specs response_spec ∧
          isinstance e (field_surface exc_spec) = true ∧
          call handler request = Raises (Exc e) ∧
          exception_attrs (body response) = {[ field_name exc_spec := e ]}))
  | Escaped value =>
      ∃ e,
        ((call handler request = Raises (Exc e) ∧
          ∀ declared, declared ∈ exception_specs response_spec →
                      isinstance e (field_surface declared) = false) ∨
         ∃ returned, call handler request = Returns returned ∧
           success_error (response_cls function)
             (body (response_from_mixed returned)) = Some e) ∧
        (isinstance e Return = true ∨
         (isinstance e StopIteration = true ∧ generator_stop = false)) ∧
        value = value_from_stopiteration e
  end.
Proof.
  simpl. unfold handle, handle_generator.
  destruct (call handler request) as [returned|[e|name message]] eqn:Hcall;
    [| |discriminate].
  - destruct (return_spec _) as [t|] eqn:Hspec.
    + destruct (is_None (body (response_from_mixed returned))) eqn:Hbody.
      { simpl. discriminate. }
      destruct (success_error _ _) as [error|] eqn:Hvalid; simpl.
      * destruct (isinstance error Return) eqn:Hreturn.
        { intros [= <-]. exists error. split_and!; [|by left|done].
          right. by exists returned. }
        destruct (isinstance error StopIteration) eqn:Hstop; [|discriminate].
        destruct generator_stop eqn:Hpep; [discriminate|].
        intros [= <-]. exists error. split_and!; [|by right|done].
        right. by exists returned.
      * intros [= <-]. simpl. split; [done|]. left. split_and!; [done..| |].
        -- discriminate.
        -- intros _ Hnone. by rewrite Hnone in Hbody.
    + simpl. intros [= <-]. simpl. split; [done|]. left. split_and!; [done..|].
      by intros [? [=]].
  - destruct (matching_exc_spec _ e) as [exc_spec|] eqn:Hmatch; simpl.
    + intros [= <-]. simpl. split; [done|]. right. split_and!; [done..|].
      apply matching_exc_spec_Some in Hmatch as (pre & post & Heq & _ & Hinst).
      exists exc_spec, e. split_and!; [|done..].
      rewrite Heq. apply elem_of_app. right. by left.
    + pose proof (proj1 (matching_exc_spec_None _ _) Hmatch) as Hnone.
      destruct (isinstance e Return) eqn:Hreturn.
      { intros [= <-]. exists e. split_and!; [by left|by left|done]. }
      destruct (isinstance e StopIteration) eqn:Hstop; [|discriminate].
      destruct generator_stop eqn:Hpep; [discriminate|].
      intros [= <-]. exists e. split_and!; [by left|by right|done].
Qed.

Lemma build_handler_response_union_witness :
  ∃ built,
    call (build_handler (H := KeyValue.collaborators)
            KeyValue.getValue_function KeyValue.getValue) KeyValue.goodbye =
      Returns (Built built) ∧
    result_cls (body built) = response (surface KeyValue.getValue_spec) ∧
    (status built = OK ∨ status built = FAILED).
Proof.
  eexists. split; [reflexivity|].
  destruct (build_handler_response_union (H := KeyValue.collaborators)
              KeyValue.getValue_function KeyValue.getValue KeyValue.goodbye
              _ eq_refl) as [Hcls [(Hok & _)|(Hfailed & _)]].
  - split; [exact Hcls|by left].
  - split; [exact Hcls|by right].
Defined.

(** X8.  When a built handler raises, it is for one of four reasons.  The
    user handler raised the very same thing, which is an instance of no
    declared exception class and neither a [tornado.gen.Return] nor a
    [StopIteration].  Or the function returns a value and the user handler
    returned none: the assertion fails.  Or the response class raised it for
    the success value it was given.  Or the interpreter turned a
    [StopIteration] that was leaving the generator, from the user handler or
    from the response class, into a [RuntimeError]. *)
Theorem build_handler_raises `{Collaborators}
    (function : Function) (handler : Handler Mixed) (request : Request)
    (raised : Raised) :
  call (build_handler function handler) request = Raises raised →
  let response_spec := type_spec (response_cls function) in
  let undeclared e :=
    ∀ declared, declared ∈ exception_specs response_spec →
                isinstance e (field_surface declared) = false in
  let refused e :=
    ∃ returned,
      call handler request = Returns returned ∧
      is_Some (return_spec response_spec) ∧
      body (response_from_mixed returned) ≠ PyNone ∧
      success_error (response_cls function)
        (body (response_from_mixed returned)) = Some e in
  (call handler request = Raises raised ∧
   ∀ e, raised = Exc e →
        undeclared e ∧
        isinstance e Return = false ∧ isinstance e StopIteration = false) ∨
  (raised = Exc (MkExc AssertionError (expected_a_value (endpoint function))) ∧
   is_Some (return_spec response_spec) ∧
   ∃ returned, call handler request = Returns returned ∧
               body (response_from_mixed returned) = PyNone) ∨
  (∃ e, raised = Exc e ∧ refused e ∧
        isinstance e Return = false ∧ isinstance e StopIteration = false) ∨
  (raised = Exc (MkExc RuntimeError "generator raised StopIteration") ∧
   generator_stop = true ∧
   ∃ e, isinstance e Return = false ∧ isinstance e StopIteration = true ∧
        ((call handler request = Raises (Exc e) ∧ undeclared e) ∨ refused e)).
Proof.
  simpl. unfold handle, handle_generator.
  destruct (call handler request) as [returned|[e|name message]] eqn:Hcall.
  - destruct (return_spec _) as [t|] eqn:Hspec; [|discriminate].
    destruct (body (response_from_mixed returned)) as [|s|z] eqn:Hbody.
    { simpl. intros [= <-]. right. left. split_and!; [done|by eexists|].
      by exists returned. }
    all: simpl;
      destruct (success_error _ _) as [error|] eqn:Hvalid; [|discriminate];
      simpl;
      (destruct (isinstance error Return) eqn:Hreturn; [discriminate|]);
      (destruct (isinstance error StopIteration) eqn:Hstop;
         [destruct generator_stop eqn:Hpep; [|discriminate]|]);
      intros [= <-].
    all: try (right; right; right; split_and!; [done..|];
              exists error; split_and!; [done..|]; right;
              exists returned; rewrite Hbody;
              split_and!; [done|by eexists|done|done]).
    all: right; right; left; exists error; split_and!; [done| |done..];
      exists returned; rewrite Hbody; split_and!; [done|by eexists|done|done].
  - destruct (matching_exc_spec _ e) as [exc_spec|] eqn:Hmatch; [discriminate|].
    pose proof (proj1 (matching_exc_spec_None _ _) Hmatch) as Hnone. simpl.
    destruct (isinstance e Return) eqn:Hreturn; [discriminate|].
    destruct (isinstance e StopIteration) eqn:Hstop.
    + destruct generator_stop eqn:Hpep; [|discriminate]. intros [= <-].
      right. right. right. split_and!; [done..|].
      exists e. split_and!; [done..|]. by left.
    + intros [= <-]. left. split; [done|]. by intros ? [= <-].
  - simpl. intros [= <-]. left. split; [done|]. intros ? [=].
Qed.

Lemma build_handler_raises_witness :
  call (build_handler (H := KeyValue.collaborators)
          KeyValue.getValue_function KeyValue.counting) KeyValue.hello =
    Raises (Exc (MkExc TypeError "success must be a string")) ∧
  ∃ returned,
    call KeyValue.counting KeyValue.hello = Returns returned ∧
    success_error (Collaborators := KeyValue.collaborators)
      (response_cls KeyValue.getValue_function)
      (body (response_from_mixed (Collaborators := KeyValue.collaborators)
               returned)) =
      Some (MkExc TypeError "success must be a string").
Proof.
  split; [reflexivity|].
  destruct (build_handler_raises (H := KeyValue.collaborators)
              KeyValue.getValue_function KeyValue.counting KeyValue.hello
              _ eq_refl)
    as [[Hcall _]|[[Hraised _]|[(e & Hraised & Hrefused & _)|[Hraised _]]]].
  - discriminate Hcall.
  - discriminate Hraised.
  - destruct Hrefused as (returned & Hcall & _ & _ & Herror).
    exists returned. split; [exact Hcall|].
    injection Hraised as <-. exact Herror.
  - discriminate Hraised.
Defined.

(** ** Registration, all cases *)

(** X9.  Called without a handler, [register] changes nothing and returns a
    decorator; giving the decorator a handler does exactly what giving that
    handler to [register] does, on the dispatcher as it is by then. *)
Theorem register_decorator_form `{Collaborators} (dispatcher : RequestDispatcher)
    (service : Service) (method : option string) :
  ∃ apply,
    register dispatcher service None method =
      (Returns (Partial apply), dispatcher) ∧
    ∀ (handler : Handler Mixed) (later : RequestDispatcher),
      register later service (Some handler) method =
        (Installed <$> (apply handler later).1, (apply handler later).2).
Proof.
  exists (λ handler later, decorator later service method handler).
  split; [reflexivity|]. intros handler later. unfold register.
  by destruct (decorator later service method handler).
Qed.

(** X10.  A method name that is not given, or is the empty string, stands
    for the name of the handler: the registration is the one made under
    [handler.__name__]. *)
Theorem register_default_method `{Collaborators} (dispatcher : RequestDispatcher)
    (service : Service) (handler : Handler Mixed) :
  register dispatcher service (Some handler) None =
    register dispatcher service (Some handler) (Some EmptyString) ∧
  (__name__ handler ≠ EmptyString →
   register dispatcher service (Some handler) None =
     register dispatcher service (Some handler) (Some (__name__ handler))).
Proof.
  split; [reflexivity|]. intros Hname.
  unfold register, decorator, method_or_name. simpl.
  destruct (String.eqb_spec (__name__ handler) EmptyString) as [|_]; done.
Qed.

Lemma register_default_method_witness :
  register (H := KeyValue.collaborators) {| handlers := ∅ |} KeyValue.service
    (Some KeyValue.getValue) None =
  register (H := KeyValue.collaborators) {| handlers := ∅ |} KeyValue.service
    (Some KeyValue.getValue) (Some "getValue").
Proof.
  apply (register_default_method (H := KeyValue.collaborators)
           {| handlers := ∅ |} KeyValue.service KeyValue.getValue).
  discriminate.
Defined.

(** X11.  [register] installs nothing but built handlers of functions that
    are not oneway.  When it returns, the name was found on the service as a
    function that is not oneway, what is returned is the handler built for
    that function, and the dispatcher was asked to register it under the
    function's endpoint with serializers for the function's request and
    response classes.  When it raises, the dispatcher is as it was. *)
Theorem register_outcome `{Collaborators} (dispatcher after : RequestDispatcher)
    (service : Service) (handler : Handler Mixed) (method : option string)
    (outcome : result Registered) :
  register dispatcher service (Some handler) method = (outcome, after) →
  match outcome with
  | Returns registered =>
      ∃ function,
        Service_getattr service (method_or_name method handler) =
          Some (AttrFunction function) ∧
        oneway function = false ∧
        registered = Installed (build_handler function handler) ∧
        after =
          dispatcher_register dispatcher (endpoint function)
            (build_handler function handler)
            (Build_ThriftRWSerializer (_module service) (request_cls function))
            (Build_ThriftRWSerializer (_module service) (response_cls function))
  | Raises raised => after = dispatcher
  end.
Proof.
  unfold register, decorator.
  destruct (Service_getattr _ _) as [[function|[|]]|] eqn:Hget;
    [destruct (oneway function) eqn:Honeway|..];
    intros [= <- <-]; simpl; try done.
  by exists function.
Qed.

Lemma register_outcome_witness :
  ∃ function,
    Service_getattr (H := KeyValue.collaborators) KeyValue.service "setValue" =
      Some (AttrFunction function) ∧
    oneway function = false.
Proof.
  destruct (register_outcome (H := KeyValue.collaborators)
              {| handlers := ∅ |} _ KeyValue.service KeyValue.setValue None _
              eq_refl) as (function & Hget & Honeway & _).
  exists function. split; [exact Hget|exact Honeway].
Defined.

(** ** Wrapping services *)

(** X12.  On a service wrapped from its class and left intact, whose
    function names are distinct, [getattr(service, name, None)] is a
    [Function] exactly for the names of the declared functions; the
    [Function] holds the spec declared under that name and the wrapper
    itself, which holds the module and the class it was made from. *)
Theorem Service_getattr_declared `{Collaborators}
    (cls : ServiceCls) (module : TChannelThriftModule) (service : Service) :
  Service_init cls module = Returns (Intact service) →
  NoDup (func_name <$> functions (service_spec cls)) →
  _module service = module ∧ _cls service = cls ∧
  ∀ (name : string) (function : Function),
    Service_getattr service name = Some (AttrFunction function) ↔
    ∃ func_spec,
      func_spec ∈ functions (service_spec cls) ∧
      func_name func_spec = name ∧
      function = {| spec := func_spec; function_service := service |}.
Proof.
  intros Hinit Hnodup.
  destruct (Service_init_attrs _ _ _ Hinit Hnodup)
    as (Hmodule & Hcls & Hattrs & Hnames).
  split_and!; [done..|]. intros name function.
  rewrite Service_getattr_function. split.
  - intros (_ & func_spec & [Hin Hname]%Hattrs & ->). by exists func_spec.
  - intros (func_spec & Hin & Hname & ->). split.
    + rewrite <- Hname. by apply Hnames.
    + exists func_spec. split; [by apply Hattrs|done].
Qed.

Lemma Service_getattr_declared_witness :
  Service_getattr (H := KeyValue.collaborators) KeyValue.service "notify" =
    Some (AttrFunction KeyValue.notify_function).
Proof.
  assert (NoDup (func_name <$> functions (service_spec KeyValue.cls))) as Hnodup.
  { apply (bool_decide_unpack _). by vm_compute. }
  destruct (Service_getattr_declared (H := KeyValue.collaborators)
              KeyValue.cls KeyValue.module KeyValue.service eq_refl Hnodup)
    as (_ & _ & Hattrs).
  apply Hattrs. exists KeyValue.notify_spec.
  split_and!; [|reflexivity..]. right. right. by left.
Defined.

(** X13.  What [Service.__init__] does with the names of the functions.  It
    raises exactly when the [setattr] of some function is refused, and then
    it raises the error of a refused function; a function called [name] is
    always refused, with [AttributeError], because [name] is a property of
    the wrapper that has no setter.  When no function is refused it returns
    a wrapper made for the module and the class, and the wrapper is intact
    exactly when no function is called [_module], [_cls] or [_spec]. *)
Theorem Service_init_outcome `{Collaborators}
    (cls : ServiceCls) (module : TChannelThriftModule) :
  let fns := functions (service_spec cls) in
  Service_setattr "name" =
    Refused (MkExc AttributeError "can't set attribute") ∧
  match Service_init cls module with
  | Raises raised =>
      ∃ f error, f ∈ fns ∧ Service_setattr (func_name f) = Refused error ∧
                 raised = Exc error
  | Returns (Intact service) =>
      _module service = module ∧ _cls service = cls ∧
      ∀ f, f ∈ fns → Service_setattr (func_name f) = Stored
  | Returns (Overwritten service names) =>
      _module service = module ∧ _cls service = cls ∧
      (∀ f error, f ∈ fns → Service_setattr (func_name f) ≠ Refused error) ∧
      ∃ f, f ∈ fns ∧ func_name f ∈ ["_module"; "_cls"; "_spec"]
  end.
Proof.
  intros fns. split; [reflexivity|]. unfold Service_init.
  destruct (Service_setattrs _ ∅ []) as [[attrs replaced]|raised] eqn:Hset;
    simpl.
  - destruct (Service_setattrs_Returns_inv _ _ _ _ _ Hset)
      as (Hall & Hnil & Hsome).
    destruct replaced as [|name replaced]; simpl.
    + split_and!; [done..|]. by apply Hnil.
    + split_and!; [done..| |].
      * intros f error Hf Hrefused.
        destruct (Hall f Hf) as [Hs|Hs]; congruence.
      * destruct (Service_setattrs_replaced _ _ _ _ _ Hset)
          as [?|(f & Hf & Hrep)]; [discriminate|].
        exists f. split; [done|]. by apply Service_setattr_Replaced.
  - by apply Service_setattrs_Raises in Hset.
Qed.

Lemma Service_init_outcome_witness :
  Service_init (H := KeyValue.collaborators) KeyValue.cls KeyValue.module =
    Returns (Intact KeyValue.service) ∧
  ∀ f, f ∈ functions (service_spec KeyValue.cls) →
       Service_setattr (H := KeyValue.collaborators) (func_name f) = Stored.
Proof.
  split; [reflexivity|].
  apply (Service_init_outcome (H := KeyValue.collaborators)
           KeyValue.cls KeyValue.module).
Defined.

(** X14.  Within one service the endpoint tells the functions apart: two
    functions of services of the same name have the same endpoint only if
    their surfaces have the same name. *)
Theorem endpoint_inj (f g : Function) :
  Service_name (function_service f) = Service_name (function_service g) →
  endpoint f = endpoint g →
  surface_name (func f) = surface_name (func g).
Proof.
  unfold endpoint. intros -> Heq.
  apply (inj (String.append _)) in Heq.
  by apply (inj (String.append _)) in Heq.
Qed.

Lemma endpoint_inj_witness :
  endpoint KeyValue.getValue_function ≠ endpoint KeyValue.setValue_function.
Proof.
  intros Heq.
  pose proof (endpoint_inj KeyValue.getValue_function
                KeyValue.setValue_function eq_refl Heq) as Hname.
  discriminate Hname.
Defined.

(** ** Wrapping a module *)

Lemma wrap_services_Returns_inv `{Collaborators} (self : TChannelThriftModule)
    (classes : list ServiceCls) (replaced : list string)
    (outcome : list (string * constructed Service) * list string) :
  wrap_services self classes replaced = Returns outcome →
  ∀ service_cls, service_cls ∈ classes →
    (∃ wrapped, Service_init service_cls self = Returns wrapped) ∧
    module_setattr_error (service_name (service_spec service_cls)) = None.
Proof.
  revert replaced outcome.
  induction classes as [|c rest IH]; simpl; intros replaced outcome.
  - intros _ service_cls Hin. by apply elem_of_nil in Hin.
  - destruct (Service_init c self) as [wrapped|] eqn:Hinit; simpl;
      [|discriminate].
    unfold module_setattr.
    destruct (module_setattr_error (service_name (service_spec c)))
      as [error|] eqn:Herror; [discriminate|].
    case_bool_decide;
      (destruct (wrap_services self rest _) as [[others replaced']|] eqn:Hrest;
         simpl; [|discriminate]);
      intros _ service_cls [->|Hin]%elem_of_cons;
      try (split; [by eexists|done]); by eapply IH.
Qed.

Lemma wrap_services_Returns `{Collaborators} (self : TChannelThriftModule)
    (classes : list ServiceCls) (replaced : list string) :
  (∀ service_cls, service_cls ∈ classes →
     (∃ wrapped, Service_init service_cls self = Returns wrapped) ∧
     module_setattr_error (service_name (service_spec service_cls)) = None) →
  ∃ outcome, wrap_services self classes replaced = Returns outcome.
Proof.
  revert replaced.
  induction classes as [|c rest IH]; simpl; intros replaced Hall.
  - by eexists.
  - destruct (Hall c) as [[wrapped ->] Herror]; [by left|]. simpl.
    unfold module_setattr. rewrite Herror.
    case_bool_decide;
      (edestruct IH as [[others replaced'] ->];
         [intros service_cls Hin; apply Hall; by right|by eexists]).
Qed.

Lemma wrap_services_replaced `{Collaborators} (self : TChannelThriftModule)
    (classes : list ServiceCls) (replaced : list string)
    (outcome : list (string * constructed Service) * list string) :
  wrap_services self classes replaced = Returns outcome →
  outcome.2 =
    replaced ++
    filter (λ name, name ∈ ["service"; "module"; "hostport"])
           ((λ service_cls, service_name (service_spec service_cls)) <$> classes).
Proof.
  revert replaced outcome.
  induction classes as [|c rest IH]; simpl; intros replaced outcome.
  - intros [= <-]. simpl. by rewrite app_nil_r.
  - destruct (Service_init c self) as [wrapped|]; simpl; [|discriminate].
    unfold module_setattr.
    destruct (module_setattr_error _); [discriminate|].
    case_bool_decide as Hname;
      (destruct (wrap_services self rest _) as [[others replaced']|] eqn:Hrest;
         simpl; [|discriminate]);
      intros [= <-]; simpl; apply IH in Hrest; simpl in Hrest; rewrite Hrest.
    + rewrite filter_cons_True by done. by rewrite <- app_assoc.
    + by rewrite filter_cons_False by done.
Qed.

(** X15.  When [TChannelThriftModule.__init__] returns, every service class
    of the compiled module was wrapped for the module being initialised.
    The module it leaves was given the service name, the compiled module and
    the hostport; the three are still there exactly when no service is
    called [service], [module] or [hostport], and otherwise the wrappers of
    the services so called, in the order of the services, have taken their
    place. *)
Theorem TChannelThriftModule_init_outcome `{Collaborators}
    (service : option string) (module : ThriftModule) (hostport : option string)
    (loaded : constructed TChannelThriftModule) :
  TChannelThriftModule_init service module hostport = Returns loaded →
  let self := {| service := service; module := module; hostport := hostport |} in
  let names :=
    (λ service_cls, service_name (service_spec service_cls)) <$> services module in
  let clashes :=
    filter (λ name, name ∈ ["service"; "module"; "hostport"]) names in
  (∀ service_cls, service_cls ∈ services module →
     ∃ wrapped, Service_init service_cls self = Returns wrapped) ∧
  stored loaded = self ∧
  (loaded = Intact self ↔
   ∀ name, name ∈ names → name ∉ ["service"; "module"; "hostport"]) ∧
  (∀ object replaced, loaded = Overwritten object replaced → replaced = clashes).
Proof.
  intros Hinit self names clashes.
  pose proof (TChannelThriftModule_init_Returns _ _ _ _ Hinit) as Hstored.
  unfold TChannelThriftModule_init in Hinit. fold self in Hinit.
  destruct (wrap_services self (services module) []) as [[wrapped replaced]|]
    eqn:Hwrap; simpl in Hinit; [|discriminate].
  injection Hinit as <-.
  pose proof (wrap_services_replaced _ _ _ _ Hwrap) as Hreplaced.
  simpl in Hreplaced. fold names in Hreplaced. fold clashes in Hreplaced.
  subst replaced. split_and!.
  - intros service_cls Hin.
    by destruct (wrap_services_Returns_inv _ _ _ _ Hwrap service_cls Hin).
  - done.
  - split.
    + intros Hintact name Hname Hclash.
      assert (name ∈ clashes) as Hin by (by apply list_elem_of_filter).
      destruct clashes; [by apply elem_of_nil in Hin|discriminate].
    + intros Hnone. destruct clashes as [|name rest] eqn:Hclashes; [done|].
      assert (name ∈ clashes) as Hin by (rewrite Hclashes; by left).
      apply list_elem_of_filter in Hin as [Hclash Hname].
      by destruct (Hnone name Hname).
  - intros object replaced. destruct clashes; [discriminate|].
    by intros [= _ <-].
Qed.

Lemma TChannelThriftModule_init_outcome_witness :
  TChannelThriftModule_init (H := KeyValue.collaborators)
    (Some "keyvalue") KeyValue.thrift_module None =
    Returns (Intact KeyValue.module) ∧
  ∀ name,
    name ∈ (λ service_cls, service_name (service_spec service_cls)) <$>
             services KeyValue.thrift_module →
    name ∉ ["service"; "module"; "hostport"].
Proof.
  split; [reflexivity|].
  apply (TChannelThriftModule_init_outcome (H := KeyValue.collaborators)
           (Some "keyvalue") KeyValue.thrift_module None
           (Intact KeyValue.module) eq_refl).
  reflexivity.
Defined.

(** X16.  What [load] gives once the two arguments are sorted out.  An error
    of [thriftrw.load] is the error of [load].  When the file compiles,
    [load] returns exactly when every service class of the file can be
    wrapped and set on the module, and the module it returns was initialised
    with the service name, the compiled module and the hostport. *)
Theorem load_outcome `{Collaborators}
    (path : string) (service hostport module_name : option string) :
  let file := if endswith path ".thrift" then Some path else service in
  let name := if endswith path ".thrift" then service else Some path in
  let self compiled :=
    {| service := name; module := compiled; hostport := hostport |} in
  match thriftrw_load file module_name with
  | Raises raised => load path service hostport module_name = Raises raised
  | Returns compiled =>
      ((∃ loaded, load path service hostport module_name = Returns loaded) ↔
       ∀ service_cls, service_cls ∈ services compiled →
         (∃ wrapped, Service_init service_cls (self compiled) = Returns wrapped) ∧
         module_setattr_error (service_name (service_spec service_cls)) = None) ∧
      ∀ loaded, load path service hostport module_name = Returns loaded →
                stored loaded = self compiled
  end.
Proof.
  intros file name self.
  assert (load path service hostport module_name =
          (compiled ← thriftrw_load file module_name;
           TChannelThriftModule_init name compiled hostport)) as ->.
  { unfold load, file, name. by destruct (endswith path ".thrift"). }
  destruct (thriftrw_load file module_name) as [compiled|raised]; simpl; [|done].
  split.
  - unfold TChannelThriftModule_init. fold (self compiled). split.
    + intros [loaded Hloaded].
      destruct (wrap_services _ _ _) as [outcome|] eqn:Hwrap; simpl in Hloaded;
        [|discriminate].
      by eapply wrap_services_Returns_inv.
    + intros Hall.
      destruct (wrap_services_Returns (self compiled) (services compiled) [] Hall)
        as [[wrapped replaced] ->].
      by eexists.
  - intros loaded. apply TChannelThriftModule_init_Returns.
Qed.

Lemma load_outcome_witness :
  load (H := KeyValue.collaborators) "missing.thrift" (Some "keyvalue")
    None None =
    Raises (Exc (MkExc (Subclass "IOError" Exception)
                   "No such file or directory")) ∧
  stored (Intact KeyValue.module) =
    {| service := Some "keyvalue"; module := KeyValue.thrift_module;
       hostport := None |}.
Proof.
  split.
  - exact (load_outcome (H := KeyValue.collaborators)
             "missing.thrift" (Some "keyvalue") None None).
  - apply (load_outcome (H := KeyValue.collaborators)
             "keyvalue.thrift" (Some "keyvalue") None None).
    reflexivity.
Defined.

(** * Properties of the benchmark server *)

(** X17.  [getValue] returns a value exactly when the dictionary holds one
    under the key and it is not [None]; it never returns [None].  For a key
    that is absent, or that holds [None], it raises [NotFoundError] with the
    key. *)
Theorem Server_getValue_outcome (values : gmap string PyVal)
    (body : Server.getValue_args) :
  (∀ value, Server.getValue values body = Returns value ↔
            values !! Server.getValue_key body = Some value ∧ value ≠ PyNone) ∧
  ((values !! Server.getValue_key body = None ∨
    values !! Server.getValue_key body = Some PyNone) →
   Server.getValue values body =
     Raises (Exc (MkExc KeyValue.NotFoundError (Server.getValue_key body)))).
Proof.
  unfold Server.getValue, Server.dict_get. split.
  - intros value.
    destruct (values !! Server.getValue_key body) as [[|s|z]|]; simpl.
    + split; [discriminate|]. by intros [[= <-] ?].
    + split; [by intros [= <-]|by intros [[= <-] _]].
    + split; [by intros [= <-]|by intros [[= <-] _]].
    + split; [discriminate|]. by intros [[=] _].
  - by intros [->| ->].
Qed.

Lemma Server_getValue_outcome_witness :
  Server.getValue Server.values {| Server.getValue_key := "hello" |} =
    Returns (PyStr "world") ∧
  Server.getValue Server.values {| Server.getValue_key := "goodbye" |} =
    Raises (Exc (MkExc KeyValue.NotFoundError "goodbye")).
Proof.
  split.
  - apply (proj1 (Server_getValue_outcome Server.values
                    {| Server.getValue_key := "hello" |})).
    split; [reflexivity|discriminate].
  - apply (proj2 (Server_getValue_outcome Server.values
                    {| Server.getValue_key := "goodbye" |})).
    left. reflexivity.
Defined.

(** X18.  [setValue] returns nothing and raises nothing.  After it,
    [getValue] of the same key returns the value that was set, unless that
    value is [None], in which case [getValue] raises [NotFoundError] even if
    the key held a value before; [getValue] of any other key does what it
    did before. *)
Theorem Server_setValue_getValue (values : gmap string PyVal)
    (body : Server.setValue_args) :
  let key := Server.setValue_key body in
  let value := Server.setValue_value body in
  let after := (Server.setValue values body).2 in
  (Server.setValue values body).1 = Returns PyNone ∧
  (value ≠ PyNone →
   Server.getValue after {| Server.getValue_key := key |} = Returns value) ∧
  (value = PyNone →
   Server.getValue after {| Server.getValue_key := key |} =
     Raises (Exc (MkExc KeyValue.NotFoundError key))) ∧
  (∀ other, Server.getValue_key other ≠ key →
   Server.getValue after other = Server.getValue values other).
Proof.
  intros key value after. unfold after, Server.setValue, Server.getValue,
    Server.dict_get. simpl. fold key value. split_and!.
  - done.
  - intros Hvalue. rewrite lookup_insert_eq. simpl.
    by destruct value.
  - intros ->. by rewrite lookup_insert_eq.
  - intros other Hother. by rewrite lookup_insert_ne.
Qed.

Lemma Server_setValue_getValue_witness :
  Server.getValue
    (Server.setValue Server.values
       {| Server.setValue_key := "hello"; Server.setValue_value := PyStr "there" |}).2
    {| Server.getValue_key := "hello" |} = Returns (PyStr "there") ∧
  Server.getValue
    (Server.setValue Server.values
       {| Server.setValue_key := "hello"; Server.setValue_value := PyNone |}).2
    {| Server.getValue_key := "hello" |} =
    Raises (Exc (MkExc KeyValue.NotFoundError "hello")).
Proof.
  split.
  - apply (Server_setValue_getValue Server.values
             {| Server.setValue_key := "hello";
                Server.setValue_value := PyStr "there" |}).
    discriminate.
  - apply (Server_setValue_getValue Server.values
             {| Server.setValue_key := "hello"; Server.setValue_value := PyNone |}).
    reflexivity.
Defined.

(** * Registration and requests together *)

(** X19.  The handler [register] returns is called after the method it was
    registered for, whatever the user's handler is called: on a wrapped
    service with distinct function names, its [__name__] is the method name
    given, or the user handler's own name when none was given. *)
Theorem register_keeps_name `{Collaborators}
    (cls : ServiceCls) (module : TChannelThriftModule) (service : Service)
    (dispatcher after : RequestDispatcher) (handler : Handler Mixed)
    (method : option string) (installed : Handler Resolved) :
  Service_init cls module = Returns (Intact service) →
  NoDup (func_name <$> functions (service_spec cls)) →
  register dispatcher service (Some handler) method =
    (Returns (Installed installed), after) →
  __name__ installed = method_or_name method handler.
Proof.
  intros Hinit Hnodup.
  destruct (Service_init_attrs _ _ _ Hinit Hnodup) as (_ & _ & Hattrs & _).
  unfold register, decorator.
  destruct (Service_getattr _ _) as [[function|[|]]|] eqn:Hget;
    [destruct (oneway function)|..]; simpl; try discriminate.
  intros [= <- _]. simpl.
  apply Service_getattr_function in Hget as (_ & func_spec & Hlook & ->).
  by apply Hattrs in Hlook as [_ Hname].
Qed.

Lemma register_keeps_name_witness :
  ∃ installed after,
    register (H := KeyValue.collaborators) {| handlers := ∅ |} KeyValue.service
      (Some KeyValue.setValue) (Some "getValue") =
      (Returns (Installed installed), after) ∧
    __name__ KeyValue.setValue = "setValue" ∧
    __name__ installed = "getValue".
Proof.
  assert (NoDup (func_name <$> functions (service_spec KeyValue.cls))) as Hnodup.
  { apply (bool_decide_unpack _). by vm_compute. }
  eexists _, _. split; [reflexivity|]. split; [reflexivity|].
  exact (register_keeps_name (H := KeyValue.collaborators)
           KeyValue.cls KeyValue.module KeyValue.service
           {| handlers := ∅ |} _ KeyValue.setValue (Some "getValue") _
           eq_refl Hnodup eq_refl).
Defined.

(** X20.  A request finds the handler registered for its function.  When a
    caller builds a request for a function, and a server registers a handler
    for a function of the same name on a service of the same name, which is
    not oneway, then the endpoint of the request is the endpoint under which
    the dispatcher holds the built handler. *)
Theorem request_finds_registration `{Collaborators}
    (called : Function) (args : list PyVal) (kwargs : list (string * PyVal))
    (self : ThriftRWRequest)
    (dispatcher : RequestDispatcher) (service : Service)
    (handler : Handler Mixed) (method : option string) (served : Function) :
  Function_call called args kwargs = Returns self →
  Service_getattr service (method_or_name method handler) =
    Some (AttrFunction served) →
  oneway served = false →
  Service_name (function_service called) = Service_name service →
  surface_name (func called) = surface_name (func served) →
  ∃ after,
    register dispatcher service (Some handler) method =
      (Returns (Installed (build_handler served handler)), after) ∧
    registered_handler <$> handlers after !! request_endpoint self =
      Some (build_handler served handler).
Proof.
  intros [_ Hendpoint]%Function_call_result_type Hget Honeway Hservice Hsurface.
  pose proof Hget as (_ & func_spec & _ & Hserved)%Service_getattr_function.
  eexists. split.
  - unfold register, decorator. by rewrite Hget, Honeway.
  - simpl. rewrite Hendpoint.
    assert (endpoint called = endpoint served) as ->.
    { unfold endpoint. rewrite Hservice, Hsurface. by rewrite Hserved. }
    by rewrite lookup_insert_eq.
Qed.

Lemma request_finds_registration_witness :
  ∃ after,
    register (H := KeyValue.collaborators) {| handlers := ∅ |} KeyValue.service
      (Some KeyValue.getValue) None =
      (Returns (Installed (build_handler (H := KeyValue.collaborators)
                             KeyValue.getValue_function KeyValue.getValue)),
       after) ∧
    registered_handler <$> handlers after !! "KeyValue::getValue" =
      Some (build_handler (H := KeyValue.collaborators)
              KeyValue.getValue_function KeyValue.getValue).
Proof.
  exact (request_finds_registration (H := KeyValue.collaborators)
           KeyValue.getValue_function [PyStr "goodbye"] []
           KeyValue.getValue_request {| handlers := ∅ |} KeyValue.service
           KeyValue.getValue None KeyValue.getValue_function
           eq_refl eq_refl eq_refl eq_refl eq_refl).
Defined.

(** * The JSON scheme over an echo *)

(** X22.  Over a channel that answers every call with the call's own arg2 as
    headers and arg3 as body, a call through the JSON scheme returns the
    headers it was given, serialized and deserialized again, and the body
    likewise.  So the caller gets back what it sent exactly when
    deserializing undoes serializing on what it sent. *)
Theorem json_call_over_echo {Obj : Type} `{Scheme Obj} (tchannel : TChannel)
    (service endpoint : string) (body headers : Obj)
    (timeout retry_on retry_limit hostport shard_key trace : PyVal) :
  (∀ kwargs, ∃ code,
     responds tchannel kwargs =
       Returns {| status := code; headers := arg2 kwargs; body := arg3 kwargs |}) →
  ∃ code,
    (JsonArgScheme_call tchannel service endpoint body headers
       timeout retry_on retry_limit hostport shard_key trace).1 =
      Returns {| status := code;
                 headers := deserialize_header (serialize_header headers);
                 body := deserialize_body (serialize_body body) |} ∧
    ((JsonArgScheme_call tchannel service endpoint body headers
        timeout retry_on retry_limit hostport shard_key trace).1 =
       Returns {| status := code; headers := headers; body := body |} ↔
     deserialize_header (serialize_header headers) = headers ∧
     deserialize_body (serialize_body body) = body).
Proof.
  intros Hecho. unfold JsonArgScheme_call, TChannel_call. simpl.
  destruct (Hecho {| call_scheme := JSON; call_service := service;
                     arg1 := endpoint;
                     arg2 := serialize_header headers;
                     arg3 := serialize_body body;
                     timeout := timeout; retry_on := retry_on;
                     retry_limit := retry_limit; call_hostport := hostport;
                     shard_key := shard_key; trace := trace |})
    as [code ->].
  exists code. simpl. split; [done|]. split.
  - by intros [= -> ->].
  - by intros [-> ->].
Qed.

Lemma json_call_over_echo_witness :
  ∃ code,
    (JsonArgScheme_call (JsonSerializer := Echo.raw) Echo.tchannel
       "echo" "ping" Echo.pong Echo.ping
       (PyInt 50) PyNone (PyInt 4) PyNone PyNone PyNone).1 =
      Returns {| status := code; headers := Echo.ping; body := Echo.pong |}.
Proof.
  destruct (json_call_over_echo (H := Echo.raw) Echo.tchannel
              "echo" "ping" Echo.pong Echo.ping
              (PyInt 50) PyNone (PyInt 4) PyNone PyNone PyNone)
    as (code & Hcall & _).
  - intros kwargs. by exists OK.
  - exists code. exact Hcall.
Defined.
